(** * Bot hosting backend: a shallow embedding of [app.py]

    The Flask application keeps two module-level dictionaries, [bots_db]
    (the registry) and [running_processes] (the process table), and talks to
    the file system under [UPLOAD_FOLDER] and to the operating system
    (child processes, [psutil]).  Each view function is embedded as a pure
    function from the state before the request (and the answers the
    environment gives during the request) to a response and the state
    after it.

    Python dictionaries are [gmap]s, Python strings are [string]s, an
    exception that a view function does not catch is the response
    [Unhandled].  The view [health_check], which reads only the clock, is
    not embedded. *)

From Stdlib Require Import Ascii String.
From stdpp Require Import gmap strings list fin_maps pretty.

Open Scope string_scope.
Open Scope Z_scope.

(** ** Python string primitives used by the application *)

Module PyStr.

Definition dot : ascii := "."%char.
Definition newline : ascii := "010"%char.
Definition NL : string := String newline EmptyString.

(** [c in s] for a one-character [c]. *)
Fixpoint contains (c : ascii) (s : string) : bool :=
  match s with
  | EmptyString => false
  | String a r => if Ascii.eqb a c then true else contains c r
  end.

(** [s.rsplit(sep, 1)]: [Some (head, tail)] stands for the two-element
    list [[head, tail]] cut at the last [sep]; [None] stands for the
    one-element list [[s]]. *)
Fixpoint rsplit1 (sep : ascii) (s : string) : option (string * string) :=
  match s with
  | EmptyString => None
  | String a r =>
      match rsplit1 sep r with
      | Some (h, t) => Some (String a h, t)
      | None => if Ascii.eqb a sep then Some (EmptyString, r) else None
      end
  end.

Definition lower_ascii (a : ascii) : ascii :=
  let n := N_of_ascii a in
  if ((65 <=? n) && (n <=? 90))%N then ascii_of_N (n + 32) else a.

(** [s.lower()] on the ASCII range. *)
Fixpoint lower (s : string) : string :=
  match s with
  | EmptyString => EmptyString
  | String a r => String (lower_ascii a) (lower r)
  end.

Definition cr : ascii := "013"%char.

(** What reading a file opened in text mode does to the line ends
    (universal newlines): a carriage return followed by a newline, and a
    carriage return alone, are read as one newline. *)
Fixpoint universal_newlines (s : string) : string :=
  match s with
  | EmptyString => EmptyString
  | String a r =>
      if Ascii.eqb a cr
      then
        match r with
        | String b r' =>
            if Ascii.eqb b newline
            then String newline (universal_newlines r')
            else String newline (universal_newlines r)
        | EmptyString => String newline EmptyString
        end
      else String a (universal_newlines r)
  end.

(** [s.split(sep)]: never the empty list. *)
Fixpoint split (sep : ascii) (s : string) : list string :=
  match s with
  | EmptyString => [EmptyString]
  | String a r =>
      if Ascii.eqb a sep then EmptyString :: split sep r
      else match split sep r with
           | h :: t => String a h :: t
           | [] => [String a EmptyString]
           end
  end.

(** [sep.join(l)]. *)
Fixpoint join (sep : string) (l : list string) : string :=
  match l with
  | [] => EmptyString
  | [x] => x
  | x :: r => x +:+ sep +:+ join sep r
  end.

(** [l[-n:]] for a positive [n]. *)
Definition last_n {A} (n : nat) (l : list A) : list A :=
  drop (length l - n) l.

(** [str(z)] for an [int]. *)
Definition str_of_int (z : Z) : string := pretty z.

(** [os.path.join(a, b)] for two components (POSIX). *)
Definition path_join (a b : string) : string :=
  match b with
  | String "/" _ => b
  | _ =>
      match a with
      | EmptyString => b
      | _ => if String.eqb (substring (String.length a - 1) 1 a) "/"
             then a +:+ b else a +:+ "/" +:+ b
      end
  end.

End PyStr.

(** ** Values, records and responses *)

(** The values the application stores in its dictionaries.  A float that
    was rounded to two decimals is kept as its number of hundredths. *)
Inductive value : Type :=
| VStr (s : string)
| VInt (z : Z)
| VFloat (hundredths : Z).

Definition value_eqb (a b : value) : bool :=
  match a, b with
  | VStr x, VStr y => String.eqb x y
  | VInt x, VInt y => Z.eqb x y
  | VFloat x, VFloat y => Z.eqb x y
  (* Python: 0 == 0.0 *)
  | VInt x, VFloat y => Z.eqb (100 * x) y
  | VFloat x, VInt y => Z.eqb x (100 * y)
  | _, _ => false
  end.

#[global] Instance value_eq_dec : EqDecision value.
Proof. solve_decision. Defined.

(** A bot record, and the merged view returned by the status endpoint, are
    Python dictionaries with string keys. *)
Abbreviation dict := (gmap string value).

Inductive exn : Type :=
| KeyError (key : string)
| IndexError
| TypeError
| TimeoutExpired
| OtherError (msg : string).

Definition str_of_exn (e : exn) : string :=
  match e with
  | KeyError k => "'" +:+ k +:+ "'"
  | IndexError => "list index out of range"
  | TypeError => "TypeError"
  | TimeoutExpired => "timed out"
  | OtherError m => m
  end.

(** What a view function hands back to Flask. *)
Inductive response : Type :=
| Fail (code : Z) (message : string)
    (* jsonify({'success': False, 'message': message}), code *)
| OkMessage (message : string)
    (* jsonify({'success': True, 'message': message}) *)
| OkUpload (message : string) (bot_id : string)
| OkStart (message : string) (pid : Z)
| OkLogs (logs : string)
| OkBot (bot : dict)
| Unhandled (e : exn).
    (* the exception leaves the view function *)

(** The [subprocess.Popen] object kept in the process table. *)
Record Popen : Type := { popen_pid : Z; popen_args : list string }.

(** An entry of [running_processes]. *)
Record RunningProcess : Type := {
  pid : Z;
  process : Popen;
  log_file : string;
  started_at : string
}.

(** The state a request sees: the two module-level dictionaries, the files
    under the upload folder (path to content) and the child processes that
    are alive. *)
Record State : Type := {
  bots_db : gmap string dict;
  running_processes : gmap string RunningProcess;
  fs : gmap string string;
  os_procs : gset Z
}.

Definition initial : State :=
  {| bots_db := ∅; running_processes := ∅; fs := ∅; os_procs := ∅ |}.

Definition set_bots_db (f : gmap string dict → gmap string dict) (s : State) : State :=
  {| bots_db := f (bots_db s); running_processes := running_processes s;
     fs := fs s; os_procs := os_procs s |}.
Definition set_running (f : gmap string RunningProcess → gmap string RunningProcess)
    (s : State) : State :=
  {| bots_db := bots_db s; running_processes := f (running_processes s);
     fs := fs s; os_procs := os_procs s |}.
Definition set_fs (f : gmap string string → gmap string string) (s : State) : State :=
  {| bots_db := bots_db s; running_processes := running_processes s;
     fs := f (fs s); os_procs := os_procs s |}.
Definition set_procs (f : gset Z → gset Z) (s : State) : State :=
  {| bots_db := bots_db s; running_processes := running_processes s;
     fs := fs s; os_procs := f (os_procs s) |}.

(** ** Configuration *)

Definition UPLOAD_FOLDER : string := "/tmp/bots".
Definition ALLOWED_EXTENSIONS : list string := ["py"; "js"].
Definition MAX_BOTS_PER_USER : nat := 3.

(** ** Helpers of [app.py] *)

(** [filename.rsplit('.', 1)[1]]; [None] is the [IndexError]. *)
Definition extension (filename : string) : option string :=
  snd <$> PyStr.rsplit1 PyStr.dot filename.

Definition allowed_file (filename : string) : bool :=
  PyStr.contains PyStr.dot filename &&
  match extension filename with
  | Some e => bool_decide (PyStr.lower e ∈ ALLOWED_EXTENSIONS)
  | None => false
  end.

(** [timestamp] is [int(time.time())], read from the clock by the caller. *)
Definition generate_bot_id (username bot_name : string) (timestamp : Z) : string :=
  username +:+ "_" +:+ bot_name +:+ "_" +:+ PyStr.str_of_int timestamp.

(** The answer of [psutil] for a pid: [Some (cpu, memory)], both already
    rounded, or [None] when [psutil] raises. *)
Definition get_process_stats (probe : Z → option (Z * Z)) (pid : Z) : dict :=
  match probe pid with
  | Some (cpu, memory) => {[ "cpu" := VFloat cpu; "memory" := VFloat memory ]}
  | None => {[ "cpu" := VInt 0; "memory" := VInt 0 ]}
  end.

Definition log_path (bot_id : string) : string :=
  PyStr.path_join UPLOAD_FOLDER (bot_id +:+ ".log").

(** ** The environment of a request

    Everything a view function asks of the outside world while it runs:
    the clock, [psutil], [subprocess] and the file system calls that can
    raise.  [None] in a fault field means that the call returns normally. *)
Record Env : Type := {
  clock : Z;                          (* int(time.time()) *)
  now_iso : string;                   (* datetime.now().isoformat() *)
  probe : Z → option (Z * Z);         (* psutil.Process(pid): cpu, rss *)
  spawn : list string → exn + Z;      (* subprocess.Popen(cmd, ...): its pid *)
  save_fault : string → option exn;   (* file.save(path) *)
  open_fault : string → option exn;   (* open(path, mode) *)
  read_fault : string → option exn;   (* f.read() *)
  remove_fault : string → option exn; (* os.remove(path) *)
  terminate_fault : Popen → option exn; (* process.terminate() *)
  wait_fault : Popen → option exn;      (* process.wait(timeout=5) *)
  kill_fault : Popen → option exn       (* process.kill() *)
}.

(** The uploaded file of a multipart request. *)
Record FileStorage : Type := { filename : string; content : string }.

(** [request.files] and [request.form] of an upload. *)
Record UploadRequest : Type := {
  bot_file : option FileStorage;      (* request.files['bot_file'] *)
  form_username : option string;      (* request.form.get('username') *)
  form_bot_name : option string       (* request.form.get('bot_name') *)
}.

(** Truth value of an optional string: [None] and the empty string are false. *)
Definition truthy (o : option string) : bool :=
  match o with
  | Some (String _ _) => true
  | _ => false
  end.

(** [sum(1 for b in bots if b['username'] == username)]; [None] is the
    [KeyError] of a record without that key. *)
Fixpoint count_owned (username : string) (bots : list dict) : option nat :=
  match bots with
  | [] => Some 0%nat
  | b :: rest =>
      match b !! "username" with
      | None => None
      | Some v =>
          n ← count_owned username rest;
          Some (if value_eqb v (VStr username) then S n else n)
      end
  end.

Definition user_bot_count (db : gmap string dict) (username : string) : option nat :=
  count_owned username (snd <$> map_to_list db).

Definition new_record (bot_id bot_name username filepath file_type created_at : string)
    : dict :=
  {[ "id" := VStr bot_id;
     "name" := VStr bot_name;
     "username" := VStr username;
     "filepath" := VStr filepath;
     "file_type" := VStr file_type;
     "created_at" := VStr created_at;
     "status" := VStr "stopped" ]}.

Section Views.

(** [werkzeug.utils.secure_filename], a function of the library. *)
Variable secure_filename : string → string.

(** POST /api/bot/upload *)
Definition upload_bot (env : Env) (req : UploadRequest) (s : State)
    : response * State :=
  match bot_file req with
  | None => (Fail 400 "No file uploaded", s)
  | Some file =>
      if negb (truthy (form_username req)) || negb (truthy (form_bot_name req))
      then (Fail 400 "Missing username or bot_name", s)
      else
        let username := default EmptyString (form_username req) in
        let bot_name := default EmptyString (form_bot_name req) in
        match user_bot_count (bots_db s) username with
        | None => (Unhandled (KeyError "username"), s)
        | Some user_bot_count =>
            if (MAX_BOTS_PER_USER <=? user_bot_count)%nat
            then (Fail 403 ("Free tier limit: " +:+ pretty MAX_BOTS_PER_USER
                              +:+ " bots per user"), s)
            else
              if truthy (Some (filename file)) && allowed_file (filename file)
              then
                let bot_id := generate_bot_id username bot_name (clock env) in
                match extension (filename file) with
                | None => (Unhandled IndexError, s)
                | Some ext =>
                    let filename := secure_filename (bot_id +:+ "." +:+ ext) in
                    let filepath := PyStr.path_join UPLOAD_FOLDER filename in
                    match save_fault env filepath with
                    | Some e => (Unhandled e, s)
                    | None =>
                        let s1 := set_fs <[filepath := content file]> s in
                        let record :=
                          new_record bot_id bot_name username filepath ext
                                     (now_iso env) in
                        (OkUpload "Bot uploaded successfully" bot_id,
                         set_bots_db <[bot_id := record]> s1)
                    end
                end
              else (Fail 400 "Invalid file type", s)
        end
  end.

End Views.

(** The launch command chosen from the stored [file_type]. *)
Definition launch_command (file_type filepath : value) : option (list value) :=
  if value_eqb file_type (VStr "py") then Some [VStr "python3"; filepath]
  else if value_eqb file_type (VStr "js") then Some [VStr "node"; filepath]
  else None.

(** The arguments as [Popen] takes them: every one must be a string. *)
Definition argv (cmd : list value) : option (list string) :=
  mapM (λ v, match v with VStr a => Some a | _ => None end) cmd.

Definition start_failure (e : exn) : response :=
  Fail 500 ("Failed to start bot: " +:+ str_of_exn e).

(** POST /api/bot/start/<bot_id> *)
Definition start_bot (env : Env) (bot_id : string) (s : State) : response * State :=
  match bots_db s !! bot_id with
  | None => (Fail 404 "Bot not found", s)
  | Some bot =>
      match running_processes s !! bot_id with
      | Some _ => (Fail 400 "Bot already running", s)
      | None =>
          match bot !! "filepath", bot !! "file_type" with
          | None, _ => (Unhandled (KeyError "filepath"), s)
          | _, None => (Unhandled (KeyError "file_type"), s)
          | Some filepath, Some file_type =>
              match launch_command file_type filepath with
              | None => (Fail 400 "Unsupported file type", s)
              | Some cmd =>
                  let log_file := log_path bot_id in
                  match open_fault env log_file with
                  | Some e => (start_failure e, s)
                  | None =>
                      let s1 := set_fs <[log_file := EmptyString]> s in
                      match argv cmd with
                      | None => (start_failure TypeError, s1)
                      | Some args =>
                          match spawn env args with
                          | inl e => (start_failure e, s1)
                          | inr p =>
                              let entry :=
                                {| pid := p;
                                   process := {| popen_pid := p; popen_args := args |};
                                   log_file := log_file;
                                   started_at := now_iso env |} in
                              (OkStart "Bot started successfully" p,
                               set_running <[bot_id := entry]>
                                 (set_procs (union {[p]}) s1))
                          end
                      end
                  end
              end
          end
      end
  end.

Definition stop_failure (e : exn) : response :=
  Fail 500 ("Failed to stop bot: " +:+ str_of_exn e).

(** [del running_processes[bot_id]], the child being gone. *)
Definition forget_process (bot_id : string) (p : Popen) (s : State) : State :=
  set_running (delete bot_id) (set_procs (λ live, live ∖ {[popen_pid p]}) s).

(** The body of the [try] of [stop_bot] and of [delete_bot]:
    [process.terminate(); process.wait(timeout=5)]. *)
Definition terminate_and_wait (env : Env) (p : Popen) : option exn :=
  match terminate_fault env p with
  | Some e => Some e
  | None => wait_fault env p
  end.

(** POST /api/bot/stop/<bot_id> *)
Definition stop_bot (env : Env) (bot_id : string) (s : State) : response * State :=
  match running_processes s !! bot_id with
  | None => (Fail 400 "Bot is not running", s)
  | Some entry =>
      let p := process entry in
      match terminate_and_wait env p with
      | None =>
          (OkMessage "Bot stopped successfully", forget_process bot_id p s)
      | Some TimeoutExpired =>
          match kill_fault env p with
          | Some e => (Unhandled e, s)
          | None => (OkMessage "Bot force-stopped", forget_process bot_id p s)
          end
      | Some e => (stop_failure e, s)
      end
  end.

(** [if os.path.exists(path): os.remove(path)]; the exception, if any, and
    the file system afterwards. *)
Definition remove_if_exists (env : Env) (path : string) (files : gmap string string)
    : option exn * gmap string string :=
  match files !! path with
  | None => (None, files)
  | Some _ =>
      match remove_fault env path with
      | Some e => (Some e, files)
      | None => (None, delete path files)
      end
  end.

(** The second [try] of [delete_bot]; whatever is raised is passed over. *)
Definition delete_files (env : Env) (bot : dict) (bot_id : string)
    (files : gmap string string) : gmap string string :=
  match bot !! "filepath" with
  | Some (VStr filepath) =>
      match remove_if_exists env filepath files with
      | (Some _, files1) => files1
      | (None, files1) => snd (remove_if_exists env (log_path bot_id) files1)
      end
  | _ => files
  end.

(** DELETE /api/bot/delete/<bot_id> *)
Definition delete_bot (env : Env) (bot_id : string) (s : State) : response * State :=
  match bots_db s !! bot_id with
  | None => (Fail 404 "Bot not found", s)
  | Some bot =>
      let s1 :=
        match running_processes s !! bot_id with
        | None => s
        | Some entry =>
            let p := process entry in
            match terminate_and_wait env p with
            | None => forget_process bot_id p s
            | Some _ => s
            end
        end in
      let s2 := set_fs (delete_files env bot bot_id) s1 in
      (OkMessage "Bot deleted successfully", set_bots_db (delete bot_id) s2)
  end.

Definition logs_failure (e : exn) : response :=
  Fail 500 ("Failed to read logs: " +:+ str_of_exn e).

(** The tail kept by [get_bot_logs]. *)
Definition tail_logs (logs : string) : string :=
  let lines := PyStr.split PyStr.newline logs in
  if (1000 <? length lines)%nat
  then PyStr.join PyStr.NL (PyStr.last_n 1000 lines)
  else logs.

(** GET /api/bot/logs/<bot_id>.  The file system holds the bytes of the log;
    [f.read()] on a file opened with [open(log_file, 'r')] hands them over
    with the line ends translated. *)
Definition get_bot_logs (env : Env) (bot_id : string) (s : State) : response * State :=
  match bots_db s !! bot_id with
  | None => (Fail 404 "Bot not found", s)
  | Some _ =>
      let log_file := log_path bot_id in
      match fs s !! log_file with
      | None => (OkLogs "No logs available yet", s)
      | Some logs =>
          match open_fault env log_file with
          | Some e => (logs_failure e, s)
          | None =>
              match read_fault env log_file with
              | Some e => (logs_failure e, s)
              | None => (OkLogs (tail_logs (PyStr.universal_newlines logs)), s)
              end
          end
      end
  end.

(** GET /api/bot/status/<bot_id> *)
Definition get_bot_status (env : Env) (bot_id : string) (s : State) : response * State :=
  match bots_db s !! bot_id with
  | None => (Fail 404 "Bot not found", s)
  | Some record =>
      let bot := record in
      match running_processes s !! bot_id with
      | Some entry =>
          let stats := get_process_stats (probe env) (pid entry) in
          match stats !! "cpu", stats !! "memory" with
          | Some cpu, Some memory =>
              (OkBot (<["started_at" := VStr (started_at entry)]>
                        (<["memory" := memory]>
                           (<["cpu" := cpu]>
                              (<["status" := VStr "running"]> bot)))), s)
          | None, _ => (Unhandled (KeyError "cpu"), s)
          | _, None => (Unhandled (KeyError "memory"), s)
          end
      | None =>
          (OkBot (<["memory" := VInt 0]>
                    (<["cpu" := VInt 0]>
                       (<["status" := VStr "stopped"]> bot))), s)
      end
  end.

(** ** The listing of an owner's bots *)

(** What [get_user_bots] hands back: the list under the key [bots], or the
    exception that leaves the view. *)
Inductive listing : Type :=
| OkBots (bots : list dict)
| ListingUnhandled (e : exn).

(** The body of the loop of [get_user_bots] for one record of the owner:
    the copy of the record with [cpu], [memory] and [status] set. *)
Definition bot_info_of (env : Env) (s : State) (bot_id : string) (bot_data : dict)
    : exn + dict :=
  let bot_info := bot_data in
  match running_processes s !! bot_id with
  | Some entry =>
      let stats := get_process_stats (probe env) (pid entry) in
      match stats !! "cpu", stats !! "memory" with
      | Some cpu, Some memory =>
          inr (<["status" := VStr "running"]>
                 (<["memory" := memory]> (<["cpu" := cpu]> bot_info)))
      | None, _ => inl (KeyError "cpu")
      | _, None => inl (KeyError "memory")
      end
  | None =>
      inr (<["status" := VStr "stopped"]>
             (<["memory" := VInt 0]> (<["cpu" := VInt 0]> bot_info)))
  end.

(** The loop over [bots_db.items()]. *)
Fixpoint collect_user_bots (env : Env) (s : State) (username : string)
    (items : list (string * dict)) : exn + list dict :=
  match items with
  | [] => inr []
  | (bot_id, bot_data) :: rest =>
      match bot_data !! "username" with
      | None => inl (KeyError "username")
      | Some v =>
          if value_eqb v (VStr username)
          then
            match bot_info_of env s bot_id bot_data with
            | inl e => inl e
            | inr bot_info =>
                match collect_user_bots env s username rest with
                | inl e => inl e
                | inr user_bots => inr (bot_info :: user_bots)
                end
            end
          else collect_user_bots env s username rest
      end
  end.

(** GET /api/bots/<username>.  The dictionary is walked in the order of
    [map_to_list]: the order of insertion, in which Python walks it, is not
    kept by the map, so the answer is modelled up to its order. *)
Definition get_user_bots (env : Env) (username : string) (s : State)
    : listing * State :=
  match collect_user_bots env s username (map_to_list (bots_db s)) with
  | inl e => (ListingUnhandled e, s)
  | inr user_bots => (OkBots user_bots, s)
  end.

(** A string without the separator of the identifiers. *)
Definition no_underscore (x : string) : Prop := PyStr.contains "_"%char x = false.

(** ** Specification-level notions *)

(** The record [b] belongs to [username]. *)
Definition owns (username : string) (b : dict) : Prop :=
  b !! "username" = Some (VStr username).

#[global] Instance owns_dec username b : Decision (owns username b).
Proof. unfold owns. apply _. Defined.

(** The registry entries of an owner, and how many bots the owner holds. *)
Definition bots_of (db : gmap string dict) (username : string) : gmap string dict :=
  filter (λ kv, owns username kv.2) db.

Definition holds (db : gmap string dict) (username : string) : nat :=
  size (bots_of db username).

(** The registry only ever contains records built by [upload_bot], each
    stored under its own identifier. *)
Definition well_formed (db : gmap string dict) : Prop :=
  map_Forall
    (λ bot_id b, ∃ name user path ty created,
        b = new_record bot_id name user path ty created) db.

(** The keys of a record as the specification lists them, and as the code
    stores them. *)
Definition spec_fields : gset string :=
  {[ "id"; "name"; "username"; "filepath"; "file_type"; "created_at" ]}.

Definition stored_fields : gset string := spec_fields ∪ {[ "status" ]}.

(** The status the status endpoint reports for a bot, if it answers. *)
Definition reported_status (env : Env) (bot_id : string) (s : State) : option value :=
  match fst (get_bot_status env bot_id s) with
  | OkBot bot => bot !! "status"
  | _ => None
  end.

(** The path at which [upload_bot] stores the script of a bot. *)
Definition script_path (secure_filename : string → string) (bot_id ext : string)
    : string :=
  PyStr.path_join UPLOAD_FOLDER (secure_filename (bot_id +:+ "." +:+ ext)).

(** An upload that carries a file of an accepted type and both form fields,
    and whose file can be written. *)
Definition valid_upload (secure_filename : string → string) (env : Env)
    (req : UploadRequest) (username bot_name : string) (file : FileStorage)
    (ext : string) : Prop :=
  bot_file req = Some file ∧
  form_username req = Some username ∧ username ≠ EmptyString ∧
  form_bot_name req = Some bot_name ∧ bot_name ≠ EmptyString ∧
  allowed_file (filename file) = true ∧
  extension (filename file) = Some ext ∧
  save_fault env
    (script_path secure_filename
       (generate_bot_id username bot_name (clock env)) ext) = None.

(** Start requests issued one after the other for the same bot. *)
Fixpoint start_many (envs : list Env) (bot_id : string) (s : State)
    : list response * State :=
  match envs with
  | [] => ([], s)
  | env :: rest =>
      let '(r, s1) := start_bot env bot_id s in
      let '(rs, s2) := start_many rest bot_id s1 in
      (r :: rs, s2)
  end.

(** One request of any kind takes the application from one state to the
    next; between two requests the children that were started write their
    logs and may exit. *)
Inductive step (secure_filename : string → string) : State → State → Prop :=
| step_upload env req s :
    step secure_filename s (snd (upload_bot secure_filename env req s))
| step_start env bot_id s :
    step secure_filename s (snd (start_bot env bot_id s))
| step_stop env bot_id s :
    step secure_filename s (snd (stop_bot env bot_id s))
| step_delete env bot_id s :
    step secure_filename s (snd (delete_bot env bot_id s))
| step_logs env bot_id s :
    step secure_filename s (snd (get_bot_logs env bot_id s))
| step_status env bot_id s :
    step secure_filename s (snd (get_bot_status env bot_id s))
| step_child_output bot_id entry output s :
    (* the child of a process table entry writes to its log, if the file
       is still at its path *)
    running_processes s !! bot_id = Some entry →
    step secure_filename s
      (set_fs (alter (λ written, written +:+ output) (log_file entry)) s)
| step_child_exit bot_id entry s :
    (* the child of a process table entry exits on its own *)
    running_processes s !! bot_id = Some entry →
    step secure_filename s (set_procs (λ live, live ∖ {[pid entry]}) s).

Definition reachable (secure_filename : string → string) (s : State) : Prop :=
  rtc (step secure_filename) initial s.

(** A line of text has no newline in it. *)
Definition no_newline (l : string) : Prop := PyStr.contains PyStr.newline l = false.

(** A text without a carriage return. *)
Definition no_cr (l : string) : Prop := PyStr.contains PyStr.cr l = false.

(** The content of a text file with the lines [ls], each ended by a
    newline, as a process that prints them writes it. *)
Definition terminated (ls : list string) : string :=
  foldr (λ l acc, l +:+ PyStr.NL +:+ acc) EmptyString ls.

(** ** Sample environments, requests and states *)

Module Sample.

(** An environment in which nothing goes wrong. *)
Definition quiet (t : Z) : Env :=
  {| clock := t;
     now_iso := "2023-11-14T22:13:20";
     probe := λ _, Some (150, 2048);
     spawn := λ _, inr 4242;
     save_fault := λ _, None;
     open_fault := λ _, None;
     read_fault := λ _, None;
     remove_fault := λ _, None;
     terminate_fault := λ _, None;
     wait_fault := λ _, None;
     kill_fault := λ _, None |}.

(** The child ignores the termination signal: [wait] times out. *)
Definition stubborn (t : Z) : Env :=
  {| clock := t;
     now_iso := "2023-11-14T22:13:25";
     probe := λ _, Some (150, 2048);
     spawn := λ _, inr 4242;
     save_fault := λ _, None;
     open_fault := λ _, None;
     read_fault := λ _, None;
     remove_fault := λ _, None;
     terminate_fault := λ _, None;
     wait_fault := λ _, Some TimeoutExpired;
     kill_fault := λ _, None |}.


Definition upload_of (user name file body : string) : UploadRequest :=
  {| bot_file := Some {| filename := file; content := body |};
     form_username := Some user;
     form_bot_name := Some name |}.

Definition echoer : UploadRequest := upload_of "alice" "echoer" "echo.py" "print(1)".
Definition echoer2 : UploadRequest := upload_of "alice" "echoer" "echo.js" "console.log(2)".
Definition shouter : UploadRequest := upload_of "alice" "shouter" "shout.PY" "print(3)".

Definition echoer_id : string := "alice_echoer_1700000000".

(** The file names of this sample need no sanitising. *)
Definition keep : string → string := id.

(** After the upload of [echoer]. *)
Definition uploaded : State := snd (upload_bot keep (quiet 1700000000) echoer initial).

(** After the upload and the start of [echoer]. *)
Definition started : State := snd (start_bot (quiet 1700000007) echoer_id uploaded).

(** Three bots of one owner. *)
Definition full : State :=
  snd (upload_bot keep (quiet 1700000003) echoer
    (snd (upload_bot keep (quiet 1700000002) echoer
      (snd (upload_bot keep (quiet 1700000001) echoer initial))))).

(** A process table entry whose registry record is gone. *)
Definition orphaned : State := snd (delete_bot (stubborn 1700000009) echoer_id started).

(** The lines [line from], ..., [line (from + count - 1)] of a log. *)
Definition line (i : nat) : string := "line " +:+ pretty i.

Definition numbered (from count : nat) : list string :=
  line <$> seq from count.

(** [uploaded], with a log of 1500 lines written by the bot. *)
Definition logged : State :=
  set_fs <[log_path echoer_id := terminated (numbered 1 1500)]> uploaded.

End Sample.

(** ** Environments in which a call fails *)

Module Faulty.

(** The interpreter is not installed: [Popen] raises. *)
Definition no_interpreter : Env :=
  {| clock := 1700000050;
     now_iso := "2023-11-14T22:14:10";
     probe := λ _, None;
     spawn := λ _, inl (OtherError "[Errno 2] No such file or directory: 'python3'");
     save_fault := λ _, None;
     open_fault := λ _, None;
     read_fault := λ _, None;
     remove_fault := λ _, None;
     terminate_fault := λ _, None;
     wait_fault := λ _, None;
     kill_fault := λ _, None |}.

(** The script of the sample bot cannot be removed. *)
Definition read_only_script : Env :=
  {| clock := 1700000060;
     now_iso := "2023-11-14T22:14:20";
     probe := λ _, None;
     spawn := λ _, inr 4243;
     save_fault := λ _, None;
     open_fault := λ _, None;
     read_fault := λ _, None;
     remove_fault := λ path,
       if String.eqb path "/tmp/bots/alice_echoer_1700000000.py"
       then Some (OtherError "[Errno 13] Permission denied")
       else None;
     terminate_fault := λ _, None;
     wait_fault := λ _, None;
     kill_fault := λ _, None |}.

End Faulty.

(** * Properties *)

(** ** The registry and the quota count *)

Lemma value_eqb_VStr v u : value_eqb v (VStr u) = true ↔ v = VStr u.
Proof.
  destruct v as [x| |]; simpl; try (split; [discriminate | congruence]).
  rewrite String.eqb_eq. split; congruence.
Qed.

Lemma new_record_username bot_id name user path ty created :
  new_record bot_id name user path ty created !! "username" = Some (VStr user).
Proof. reflexivity. Qed.

Lemma new_record_filepath bot_id name user path ty created :
  new_record bot_id name user path ty created !! "filepath" = Some (VStr path).
Proof. reflexivity. Qed.

Lemma new_record_file_type bot_id name user path ty created :
  new_record bot_id name user path ty created !! "file_type" = Some (VStr ty).
Proof. reflexivity. Qed.

Lemma new_record_status bot_id name user path ty created :
  new_record bot_id name user path ty created !! "status" = Some (VStr "stopped").
Proof. reflexivity. Qed.

Lemma new_record_fields bot_id name user path ty created :
  dom (new_record bot_id name user path ty created) = stored_fields.
Proof.
  unfold new_record, stored_fields, spec_fields.
  rewrite !dom_insert_L, dom_singleton_L. set_solver.
Qed.

Lemma count_owned_perm username (l1 l2 : list dict) :
  l1 ≡ₚ l2 → count_owned username l1 = count_owned username l2.
Proof.
  induction 1 as [|b l1 l2 _ IH|b c l|l1 l2 l3 _ IH1 _ IH2]; simpl.
  - reflexivity.
  - by rewrite IH.
  - destruct (c !! "username") as [vc|], (b !! "username") as [vb|],
      (count_owned username l) as [n|]; simpl; try reflexivity.
    by destruct (value_eqb vb _), (value_eqb vc _).
  - congruence.
Qed.

Lemma well_formed_empty : well_formed ∅.
Proof. apply map_Forall_empty. Qed.

Lemma well_formed_insert db bot_id name user path ty created :
  well_formed db →
  well_formed (<[bot_id := new_record bot_id name user path ty created]> db).
Proof.
  intros Hwf. apply map_Forall_insert_2; [|done]. by exists name, user, path, ty, created.
Qed.

Lemma well_formed_delete db bot_id : well_formed db → well_formed (delete bot_id db).
Proof. intros Hwf. by apply map_Forall_delete. Qed.

Lemma well_formed_username db bot_id b :
  well_formed db → db !! bot_id = Some b → ∃ user, b !! "username" = Some (VStr user).
Proof.
  intros Hwf Hb. destruct (Hwf _ _ Hb) as (name & user & path & ty & created & ->).
  by exists user.
Qed.

(** On a well-formed registry the count made by [upload_bot] is the number
    of bots the owner holds. *)
Lemma user_bot_count_holds db username :
  well_formed db → user_bot_count db username = Some (holds db username).
Proof.
  unfold user_bot_count, holds, bots_of.
  induction db as [|bot_id b db Hfresh IH] using map_ind.
  - intros _. by rewrite map_to_list_empty, map_filter_empty, map_size_empty.
  - intros Hwf. apply map_Forall_insert in Hwf as [Hb Hwf]; [|done].
    rewrite (count_owned_perm _ _ _
               (fmap_Permutation snd _ _ (map_to_list_insert db bot_id b Hfresh))).
    rewrite fmap_cons. cbn [count_owned snd].
    destruct Hb as (name & user & path & ty & created & ->).
    rewrite new_record_username, (IH Hwf). cbn [mbind option_bind]. f_equal.
    destruct (value_eqb (VStr user) (VStr username)) eqn:Heq.
    + apply value_eqb_VStr in Heq as [= ->].
      rewrite map_filter_insert_True by done.
      rewrite map_size_insert_None; [done|].
      by rewrite map_lookup_filter_None; left.
    + rewrite map_filter_insert_not'; [done| |].
      * simpl. unfold owns. rewrite new_record_username. intros [= ->].
        simpl in Heq. by rewrite String.eqb_refl in Heq.
      * intros y. by rewrite Hfresh.
Qed.

(** ** Upload *)

Lemma truthy_Some u : u ≠ EmptyString → truthy (Some u) = true.
Proof. by destruct u. Qed.

Lemma allowed_file_truthy f : allowed_file f = true → truthy (Some f) = true.
Proof. by destruct f. Qed.

Lemma limit_message :
  "Free tier limit: " +:+ pretty MAX_BOTS_PER_USER +:+ " bots per user"
  = "Free tier limit: 3 bots per user".
Proof. vm_compute. reflexivity. Qed.

Section Upload.

Variable secure_filename : string → string.

(** An owner at the limit is refused before the file is looked at, and
    nothing changes. *)
Lemma upload_bot_over_quota env req s file username bot_name :
  bot_file req = Some file →
  form_username req = Some username → username ≠ EmptyString →
  form_bot_name req = Some bot_name → bot_name ≠ EmptyString →
  well_formed (bots_db s) →
  (MAX_BOTS_PER_USER ≤ holds (bots_db s) username)%nat →
  upload_bot secure_filename env req s
  = (Fail 403 "Free tier limit: 3 bots per user", s).
Proof.
  intros Hfile Hu Hune Hn Hnne Hwf Hquota. unfold upload_bot.
  rewrite Hfile, Hu, Hn, !truthy_Some by done. cbn [negb orb default from_option id].
  rewrite (user_bot_count_holds _ _ Hwf).
  destruct (Nat.leb_spec MAX_BOTS_PER_USER (holds (bots_db s) username)); [|lia].
  by rewrite limit_message.
Qed.

(** Below the limit a valid upload is accepted: the file is written and
    the record is stored under the generated identifier. *)
Lemma upload_bot_accepts env req s file username bot_name ext :
  valid_upload secure_filename env req username bot_name file ext →
  well_formed (bots_db s) →
  (holds (bots_db s) username < MAX_BOTS_PER_USER)%nat →
  let bot_id := generate_bot_id username bot_name (clock env) in
  let filepath := script_path secure_filename bot_id ext in
  upload_bot secure_filename env req s
  = (OkUpload "Bot uploaded successfully" bot_id,
     set_bots_db
       <[bot_id := new_record bot_id bot_name username filepath ext (now_iso env)]>
       (set_fs <[filepath := content file]> s)).
Proof.
  intros (Hfile & Hu & Hune & Hn & Hnne & Hok & Hext & Hsave) Hwf Hquota.
  unfold script_path in *. unfold upload_bot.
  rewrite Hfile, Hu, Hn, !truthy_Some by done. cbn [negb orb default from_option id].
  rewrite (user_bot_count_holds _ _ Hwf).
  destruct (Nat.leb_spec MAX_BOTS_PER_USER (holds (bots_db s) username)); [lia|].
  rewrite (allowed_file_truthy _ Hok), Hok, Hext. cbn [andb].
  by rewrite Hsave.
Qed.

(** Whatever the request, the registry stays well formed. *)
Lemma upload_bot_well_formed env req s :
  well_formed (bots_db s) →
  well_formed (bots_db (snd (upload_bot secure_filename env req s))).
Proof.
  intros Hwf. unfold upload_bot.
  repeat (case_match; try done).
  cbn. by apply well_formed_insert.
Qed.

(** A stored record with a fresh identifier is one more bot for its owner
    and for nobody else. *)
Lemma holds_insert_fresh db bot_id name user path ty created who :
  db !! bot_id = None →
  holds (<[bot_id := new_record bot_id name user path ty created]> db) who
  = if decide (who = user) then S (holds db who) else holds db who.
Proof.
  intros Hfresh. unfold holds, bots_of. case_decide as Hwho.
  - subst who. rewrite map_filter_insert_True by done.
    rewrite map_size_insert_None; [done|].
    by rewrite map_lookup_filter_None; left.
  - rewrite map_filter_insert_not'; [done| |].
    + cbn. unfold owns. rewrite new_record_username. congruence.
    + intros y. by rewrite Hfresh.
Qed.

(** X3.  The quota as the code enforces it, on a well-formed registry and
    for an identifier that is not taken: an owner who holds
    [MAX_BOTS_PER_USER] bots or more is answered 403 and nothing changes; an
    owner below the limit is accepted, the registry grows by exactly one
    entry, the owner holds one bot more and every earlier entry is kept. *)
Lemma upload_bot_quota env req s file username bot_name ext :
  valid_upload secure_filename env req username bot_name file ext →
  well_formed (bots_db s) →
  bots_db s !! generate_bot_id username bot_name (clock env) = None →
  let r := upload_bot secure_filename env req s in
  ((MAX_BOTS_PER_USER ≤ holds (bots_db s) username)%nat →
     fst r = Fail 403 "Free tier limit: 3 bots per user" ∧ snd r = s) ∧
  ((holds (bots_db s) username < MAX_BOTS_PER_USER)%nat →
     fst r = OkUpload "Bot uploaded successfully"
               (generate_bot_id username bot_name (clock env)) ∧
     size (bots_db (snd r)) = S (size (bots_db s)) ∧
     holds (bots_db (snd r)) username = S (holds (bots_db s) username) ∧
     bots_db s ⊆ bots_db (snd r)).
Proof.
  intros Hvalid Hwf Hfresh r. subst r. split; intros Hquota.
  - destruct Hvalid as (Hfile & Hu & Hune & Hn & Hnne & _).
    by rewrite (upload_bot_over_quota env req s file username bot_name).
  - rewrite (upload_bot_accepts env req s file username bot_name ext) by done.
    cbn. split; [done|]. split; [by apply map_size_insert_None|].
    split; [|by apply insert_subseteq].
    rewrite holds_insert_fresh by done. by rewrite decide_True.
Qed.

End Upload.

(** ** Status *)

Lemma get_process_stats_cpu probe pid :
  get_process_stats probe pid !! "cpu"
  = Some (match probe pid with Some (cpu, _) => VFloat cpu | None => VInt 0 end).
Proof. unfold get_process_stats. by destruct (probe pid) as [[cpu memory]|]. Qed.

Lemma get_process_stats_memory probe pid :
  get_process_stats probe pid !! "memory"
  = Some (match probe pid with Some (_, memory) => VFloat memory | None => VInt 0 end).
Proof. unfold get_process_stats. by destruct (probe pid) as [[cpu memory]|]. Qed.

(** The probe never fails its caller: the view always answers. *)
Lemma get_bot_status_running env bot_id s record entry :
  bots_db s !! bot_id = Some record →
  running_processes s !! bot_id = Some entry →
  get_bot_status env bot_id s
  = (OkBot (<["started_at" := VStr (started_at entry)]>
              (<["memory" := match probe env (pid entry) with
                             | Some (_, memory) => VFloat memory
                             | None => VInt 0
                             end]>
                 (<["cpu" := match probe env (pid entry) with
                             | Some (cpu, _) => VFloat cpu
                             | None => VInt 0
                             end]>
                    (<["status" := VStr "running"]> record)))), s).
Proof.
  intros Hrec Hrun. unfold get_bot_status.
  by rewrite Hrec, Hrun, get_process_stats_cpu, get_process_stats_memory.
Qed.

Lemma get_bot_status_stopped env bot_id s record :
  bots_db s !! bot_id = Some record →
  running_processes s !! bot_id = None →
  get_bot_status env bot_id s
  = (OkBot (<["memory" := VInt 0]>
              (<["cpu" := VInt 0]> (<["status" := VStr "stopped"]> record))), s).
Proof. intros Hrec Hrun. unfold get_bot_status. by rewrite Hrec, Hrun. Qed.

Lemma reported_status_running env bot_id s :
  is_Some (bots_db s !! bot_id) →
  is_Some (running_processes s !! bot_id) →
  reported_status env bot_id s = Some (VStr "running").
Proof.
  intros [record Hrec] [entry Hrun]. unfold reported_status.
  rewrite (get_bot_status_running env bot_id s record entry) by done.
  cbn. by simplify_map_eq.
Qed.

Lemma reported_status_stopped env bot_id s :
  is_Some (bots_db s !! bot_id) →
  running_processes s !! bot_id = None →
  reported_status env bot_id s = Some (VStr "stopped").
Proof.
  intros [record Hrec] Hrun. unfold reported_status.
  rewrite (get_bot_status_stopped env bot_id s record) by done.
  cbn. by simplify_map_eq.
Qed.

(** C1.  For a bot of the registry the status endpoint answers with the
    record merged with derived fields: the status is "running" exactly when
    the process table has an entry for the bot, and then cpu and memory are
    those of the stats probe and started_at is that of the entry; otherwise
    the status is "stopped" and cpu and memory are 0.  The state is not
    changed. *)
Theorem status_running_iff_process_entry env bot_id s record :
  bots_db s !! bot_id = Some record →
  ∃ bot,
    get_bot_status env bot_id s = (OkBot bot, s) ∧
    (bot !! "status" = Some (VStr "running")
     ↔ is_Some (running_processes s !! bot_id)) ∧
    (∀ entry, running_processes s !! bot_id = Some entry →
       bot !! "status" = Some (VStr "running") ∧
       bot !! "cpu" = get_process_stats (probe env) (pid entry) !! "cpu" ∧
       bot !! "memory" = get_process_stats (probe env) (pid entry) !! "memory" ∧
       bot !! "started_at" = Some (VStr (started_at entry))) ∧
    (running_processes s !! bot_id = None →
       bot !! "status" = Some (VStr "stopped") ∧
       bot !! "cpu" = Some (VInt 0) ∧
       bot !! "memory" = Some (VInt 0) ∧
       bot !! "started_at" = record !! "started_at") ∧
    (∀ k, k ∉ ({[ "status"; "cpu"; "memory"; "started_at" ]} : gset string) →
       bot !! k = record !! k).
Proof.
  intros Hrec. destruct (running_processes s !! bot_id) as [entry|] eqn:Hrun.
  - eexists. split; [by apply get_bot_status_running|].
    split; [by simplify_map_eq|]. split; [|split; [done|]].
    + intros ? [= <-].
      rewrite get_process_stats_cpu, get_process_stats_memory.
      by simplify_map_eq.
    + intros k Hk. rewrite !lookup_insert_ne by set_solver. done.
  - eexists. split; [by apply get_bot_status_stopped|].
    split; [split; [by simplify_map_eq | by intros [? ?]]|].
    split; [done|]. split; [intros _; by simplify_map_eq|].
    intros k Hk. rewrite !lookup_insert_ne by set_solver. done.
Qed.

Lemma status_running_iff_process_entry_witness :
  is_Some (bots_db Sample.started !! Sample.echoer_id) ∧
  ∃ bot,
    get_bot_status (Sample.quiet 1700000010) Sample.echoer_id Sample.started
    = (OkBot bot, Sample.started) ∧
    bot !! "status" = Some (VStr "running") ∧
    bot !! "cpu" = Some (VFloat 150).
Proof.
  split; [vm_compute; eauto|].
  destruct (status_running_iff_process_entry (Sample.quiet 1700000010)
              Sample.echoer_id Sample.started
              (new_record Sample.echoer_id "echoer" "alice"
                 "/tmp/bots/alice_echoer_1700000000.py" "py" "2023-11-14T22:13:20"))
    as (bot & Hview & _ & Hrun & _); [vm_compute; reflexivity|].
  exists bot. split; [exact Hview|].
  destruct (Hrun {| pid := 4242;
                    process := {| popen_pid := 4242;
                                  popen_args := ["python3"; "/tmp/bots/alice_echoer_1700000000.py"] |};
                    log_file := "/tmp/bots/alice_echoer_1700000000.log";
                    started_at := "2023-11-14T22:13:20" |})
    as (Hstatus & Hcpu & _); [vm_compute; reflexivity|].
  split; [exact Hstatus|]. rewrite Hcpu. vm_compute. reflexivity.
Defined.

(** ** Stop *)

Lemma forget_process_spec bot_id p s :
  bots_db (forget_process bot_id p s) = bots_db s ∧
  running_processes (forget_process bot_id p s) = delete bot_id (running_processes s) ∧
  fs (forget_process bot_id p s) = fs s ∧
  os_procs (forget_process bot_id p s) = os_procs s ∖ {[popen_pid p]}.
Proof. done. Qed.








(** ** Delete *)

Lemma remove_if_exists_quiet env path files :
  remove_fault env path = None →
  remove_if_exists env path files = (None, delete path files).
Proof.
  intros Hquiet. unfold remove_if_exists. rewrite Hquiet.
  destruct (files !! path) eqn:Hfile; [done|]. by rewrite delete_id.
Qed.

(** The registry entry always goes. *)
Lemma delete_bot_registry env bot_id s :
  is_Some (bots_db s !! bot_id) →
  fst (delete_bot env bot_id s) = OkMessage "Bot deleted successfully" ∧
  bots_db (snd (delete_bot env bot_id s)) = delete bot_id (bots_db s).
Proof.
  intros [record Hrec]. unfold delete_bot. rewrite Hrec. cbn. split; [done|].
  destruct (running_processes s !! bot_id) as [entry|]; [|done].
  by destruct (terminate_and_wait env (process entry)).
Qed.

(** X13.  When the bot is stopped, or stops in time, and the files can be
    removed, nothing of the bot is left. *)
Lemma delete_bot_clean env bot_id s name user path ty created :
  bots_db s !! bot_id = Some (new_record bot_id name user path ty created) →
  (∀ entry, running_processes s !! bot_id = Some entry →
     terminate_and_wait env (process entry) = None) →
  remove_fault env path = None →
  remove_fault env (log_path bot_id) = None →
  let s' := snd (delete_bot env bot_id s) in
  bots_db s' !! bot_id = None ∧
  running_processes s' !! bot_id = None ∧
  fs s' !! path = None ∧
  fs s' !! log_path bot_id = None.
Proof.
  intros Hrec Hstop Hscript Hlog s'. subst s'. unfold delete_bot. rewrite Hrec.
  cbn. split; [apply lookup_delete_eq|].
  unfold delete_files. rewrite new_record_filepath.
  rewrite !remove_if_exists_quiet by done. cbn.
  destruct (running_processes s !! bot_id) as [entry|] eqn:Hrun.
  - rewrite (Hstop entry eq_refl). cbn.
    split; [apply lookup_delete_eq|].
    split; [|apply lookup_delete_eq].
    destruct (decide (path = log_path bot_id)) as [->|Hne];
      [apply lookup_delete_eq|].
    rewrite lookup_delete_ne by done. apply lookup_delete_eq.
  - split; [done|]. split; [|apply lookup_delete_eq].
    destruct (decide (path = log_path bot_id)) as [->|Hne];
      [apply lookup_delete_eq|].
    rewrite lookup_delete_ne by done. apply lookup_delete_eq.
Qed.

(** When the graceful termination raises, whatever it raises, the record
    goes but the process table entry and the child stay: there is no kill
    and no removal on that path. *)
Lemma delete_bot_failed_stop env bot_id s entry e :
  is_Some (bots_db s !! bot_id) →
  running_processes s !! bot_id = Some entry →
  terminate_and_wait env (process entry) = Some e →
  let s' := snd (delete_bot env bot_id s) in
  bots_db s' !! bot_id = None ∧
  running_processes s' !! bot_id = Some entry ∧
  os_procs s' = os_procs s.
Proof.
  intros [record Hrec] Hrun Hterm s'. subst s'. unfold delete_bot.
  rewrite Hrec, Hrun, Hterm. cbn. split; [apply lookup_delete_eq | done].
Qed.

(** C3, on the code.  A registered, running bot whose process does not
    exit within the timeout: [delete_bot] answers success and removes the
    registry record and the files, yet the process table entry is still
    there and the child is still alive. *)
Theorem delete_bot_timeout_leaves_process_entry :
  let r := delete_bot (Sample.stubborn 1700000009) Sample.echoer_id Sample.started in
  is_Some (bots_db Sample.started !! Sample.echoer_id) ∧
  is_Some (running_processes Sample.started !! Sample.echoer_id) ∧
  fst r = OkMessage "Bot deleted successfully" ∧
  bots_db (snd r) !! Sample.echoer_id = None ∧
  fs (snd r) = ∅ ∧
  running_processes (snd r) !! Sample.echoer_id
  = running_processes Sample.started !! Sample.echoer_id ∧
  running_processes (snd r) !! Sample.echoer_id ≠ None ∧
  4242 ∈ os_procs (snd r).
Proof.
  cbv zeta. do 2 (split; [vm_compute; eauto|]).
  do 5 (split; [vm_compute; done|]).
  apply (bool_decide_unpack _). vm_compute. exact I.
Qed.

(** The same request to [stop_bot] kills the child and removes the entry. *)
Lemma stop_bot_timeout_removes_entry :
  let r := stop_bot (Sample.stubborn 1700000009) Sample.echoer_id Sample.started in
  fst r = OkMessage "Bot force-stopped" ∧
  running_processes (snd r) !! Sample.echoer_id = None ∧
  os_procs (snd r) = ∅.
Proof. vm_compute. done. Qed.

(** ** Start *)

(** The state with a process table entry and no registry record can be
    reached by requests alone. *)
Lemma orphaned_reachable : reachable Sample.keep Sample.orphaned.
Proof.
  unfold reachable, Sample.orphaned, Sample.started, Sample.uploaded.
  eapply rtc_l; [apply (step_upload _ (Sample.quiet 1700000000) Sample.echoer)|].
  eapply rtc_l; [apply (step_start _ (Sample.quiet 1700000007) Sample.echoer_id)|].
  eapply rtc_l; [apply (step_delete _ (Sample.stubborn 1700000009) Sample.echoer_id)|].
  apply rtc_refl.
Qed.

(** The claim C5 as worded fails for an identifier that has a process table
    entry and no registry record: the answer is "Bot not found", 404. *)
Lemma start_bot_orphaned_not_found :
  running_processes Sample.orphaned !! Sample.echoer_id ≠ None ∧
  start_bot (Sample.quiet 1700000030) Sample.echoer_id Sample.orphaned
  = (Fail 404 "Bot not found", Sample.orphaned).
Proof. vm_compute. done. Qed.

(** C5, amended.  For a bot of the registry that already has a process
    table entry, [start_bot] answers "Bot already running", 400; no process
    is spawned, no file is touched and the entry is the one that was
    there. *)
Theorem start_bot_already_running env bot_id s record entry :
  bots_db s !! bot_id = Some record →
  running_processes s !! bot_id = Some entry →
  let r := start_bot env bot_id s in
  fst r = Fail 400 "Bot already running" ∧
  snd r = s ∧
  os_procs (snd r) = os_procs s ∧
  running_processes (snd r) !! bot_id = Some entry.
Proof.
  intros Hrec Hrun r. subst r. unfold start_bot. by rewrite Hrec, Hrun.
Qed.

Lemma start_bot_already_running_witness :
  is_Some (bots_db Sample.started !! Sample.echoer_id) ∧
  is_Some (running_processes Sample.started !! Sample.echoer_id) ∧
  start_bot (Sample.quiet 1700000030) Sample.echoer_id Sample.started
  = (Fail 400 "Bot already running", Sample.started).
Proof.
  do 2 (split; [vm_compute; eauto|]).
  destruct (start_bot_already_running (Sample.quiet 1700000030)
              Sample.echoer_id Sample.started
              (new_record Sample.echoer_id "echoer" "alice"
                 "/tmp/bots/alice_echoer_1700000000.py" "py" "2023-11-14T22:13:20")
              {| pid := 4242;
                 process := {| popen_pid := 4242;
                               popen_args := ["python3"; "/tmp/bots/alice_echoer_1700000000.py"] |};
                 log_file := "/tmp/bots/alice_echoer_1700000000.log";
                 started_at := "2023-11-14T22:13:20" |})
    as (Hresp & Hstate & _); [vm_compute; reflexivity..|].
  by apply injective_projections.
Defined.

(** With or without a registry record, a start on an identifier that has a
    process table entry changes nothing. *)
Lemma start_bot_entry_unchanged env bot_id s :
  is_Some (running_processes s !! bot_id) →
  snd (start_bot env bot_id s) = s ∧
  (fst (start_bot env bot_id s) = Fail 400 "Bot already running" ∨
   fst (start_bot env bot_id s) = Fail 404 "Bot not found").
Proof.
  intros [entry Hrun]. unfold start_bot. rewrite Hrun.
  destruct (bots_db s !! bot_id); auto.
Qed.

(** ** Logs *)

(** C9.  For a bot of the registry with no log file at its log path (it was
    never started), the logs endpoint answers success with the sentinel
    "No logs available yet", whatever the environment; it touches
    nothing. *)
Theorem get_bot_logs_before_start env bot_id s :
  is_Some (bots_db s !! bot_id) →
  fs s !! log_path bot_id = None →
  get_bot_logs env bot_id s = (OkLogs "No logs available yet", s).
Proof.
  intros [record Hrec] Hnone. unfold get_bot_logs. by rewrite Hrec, Hnone.
Qed.

Lemma get_bot_logs_before_start_witness :
  is_Some (bots_db Sample.uploaded !! Sample.echoer_id) ∧
  fs Sample.uploaded !! log_path Sample.echoer_id = None ∧
  get_bot_logs (Sample.quiet 1700000005) Sample.echoer_id Sample.uploaded
  = (OkLogs "No logs available yet", Sample.uploaded).
Proof.
  split; [vm_compute; eauto|]. split; [vm_compute; reflexivity|].
  apply (get_bot_logs_before_start (Sample.quiet 1700000005)
           Sample.echoer_id Sample.uploaded);
    [vm_compute; eauto | vm_compute; reflexivity].
Defined.

(** ** What the registry stores *)

Lemma start_bot_registry env bot_id s :
  bots_db (snd (start_bot env bot_id s)) = bots_db s.
Proof. unfold start_bot. by repeat case_match. Qed.

Lemma stop_bot_registry env bot_id s :
  bots_db (snd (stop_bot env bot_id s)) = bots_db s.
Proof. unfold stop_bot. by repeat case_match. Qed.

Lemma get_bot_logs_state env bot_id s : snd (get_bot_logs env bot_id s) = s.
Proof. unfold get_bot_logs. by repeat case_match. Qed.

Lemma get_bot_status_state env bot_id s : snd (get_bot_status env bot_id s) = s.
Proof. unfold get_bot_status. by repeat case_match. Qed.

(** Every request keeps the registry well formed. *)
Lemma step_well_formed secure_filename s s' :
  step secure_filename s s' → well_formed (bots_db s) → well_formed (bots_db s').
Proof.
  destruct 1 as [env req s|env bot_id s|env bot_id s|env bot_id s
                |env bot_id s|env bot_id s|bot_id entry output s Hchild
                |bot_id entry s Hchild]; intros Hwf; try exact Hwf.
  - by apply upload_bot_well_formed.
  - by rewrite start_bot_registry.
  - by rewrite stop_bot_registry.
  - destruct (bots_db s !! bot_id) as [record|] eqn:Hrec.
    + destruct (delete_bot_registry env bot_id s) as [_ ->]; [eauto|].
      by apply well_formed_delete.
    + unfold delete_bot. by rewrite Hrec.
  - by rewrite get_bot_logs_state.
  - by rewrite get_bot_status_state.
Qed.

Lemma reachable_well_formed secure_filename s :
  reachable secure_filename s → well_formed (bots_db s).
Proof.
  unfold reachable. intros Hreach.
  apply (rtc_ind_r (R := step secure_filename) (λ t, well_formed (bots_db t)) initial);
    [| |exact Hreach].
  - apply well_formed_empty.
  - intros t t' _ Hstep Hwf. by eapply step_well_formed.
Qed.

(** The only writes to the registry are the insertion of [upload_bot] and
    the removal of [delete_bot]: a record that is still there is the record
    that was stored. *)
Lemma step_record_unchanged secure_filename s s' bot_id record record' :
  step secure_filename s s' →
  bots_db s !! bot_id = Some record →
  bots_db s' !! bot_id = Some record' →
  record' = record ∨ record' !! "status" = Some (VStr "stopped").
Proof.
  destruct 1 as [env req s|env b s|env b s|env b s|env b s|env b s
                |b entry output s Hchild|b entry s Hchild];
    intros Hrec Hrec'; try (left; cbn in Hrec'; congruence).
  - revert Hrec'. unfold upload_bot.
    repeat (case_match; try (cbn; intros; left; congruence)).
    cbn. intros [[_ <-]|[_ Hrec']]%lookup_insert_Some.
    + right. apply new_record_status.
    + left. congruence.
  - left. rewrite start_bot_registry in Hrec'. congruence.
  - left. rewrite stop_bot_registry in Hrec'. congruence.
  - left. destruct (bots_db s !! b) as [r|] eqn:Hb.
    + destruct (delete_bot_registry env b s) as [_ Hdb]; [eauto|].
      rewrite Hdb in Hrec'. apply lookup_delete_Some in Hrec' as [_ Hrec'].
      congruence.
    + unfold delete_bot in Hrec'. rewrite Hb in Hrec'. cbn in Hrec'. congruence.
  - left. rewrite get_bot_logs_state in Hrec'. congruence.
  - left. rewrite get_bot_status_state in Hrec'. congruence.
Qed.

(** What an accepted upload leaves in the registry. *)
Lemma upload_bot_stores secure_filename env req s message bot_id s' :
  upload_bot secure_filename env req s = (OkUpload message bot_id, s') →
  ∃ name user path ty created,
    bots_db s' = <[bot_id := new_record bot_id name user path ty created]> (bots_db s) ∧
    running_processes s' = running_processes s ∧
    os_procs s' = os_procs s.
Proof.
  unfold upload_bot. repeat (case_match; try done). intros [= <- <- <-].
  by eexists _, _, _, _, _.
Qed.

(** The claim C6 as worded fails: the record that [upload_bot] stores has a
    seventh key, "status", with the value "stopped". *)
Lemma upload_bot_stores_status :
  ∃ record,
    bots_db Sample.uploaded !! Sample.echoer_id = Some record ∧
    record !! "status" = Some (VStr "stopped") ∧
    dom record ≠ spec_fields.
Proof.
  exists (new_record Sample.echoer_id "echoer" "alice"
            "/tmp/bots/alice_echoer_1700000000.py" "py" "2023-11-14T22:13:20").
  split; [vm_compute; reflexivity|]. split; [reflexivity|].
  rewrite new_record_fields. unfold stored_fields, spec_fields.
  intros Heq. assert (Hin : "status" ∈ ({[ "id"; "name"; "username"; "filepath";
                                          "file_type"; "created_at" ]} : gset string)).
  { rewrite <- Heq. set_solver. }
  set_solver.
Qed.

(** C6, amended.  The record that an accepted upload stores has the six
    keys id, name, username, filepath, file_type and created_at and, as a
    seventh, a status that is the constant "stopped"; starting and stopping
    the bot never write to the registry, so the stored status stays
    "stopped" also while the bot runs.  The status that the status endpoint
    reports does not come from it: whatever the stored record says, the
    report is "running" exactly when the process table has an entry. *)
Theorem stored_status_is_not_the_reported_status
    secure_filename env req s message bot_id s' :
  upload_bot secure_filename env req s = (OkUpload message bot_id, s') →
  ∃ record,
    bots_db s' !! bot_id = Some record ∧
    dom record = stored_fields ∧
    record !! "id" = Some (VStr bot_id) ∧
    record !! "status" = Some (VStr "stopped") ∧
    (∀ env1 env2,
       bots_db (snd (start_bot env1 bot_id s')) !! bot_id = Some record ∧
       bots_db (snd (stop_bot env2 bot_id (snd (start_bot env1 bot_id s')))) !! bot_id
       = Some record) ∧
    (∀ env' t, bots_db t !! bot_id = Some record →
       (reported_status env' bot_id t = Some (VStr "running")
        ↔ is_Some (running_processes t !! bot_id)) ∧
       (reported_status env' bot_id t = Some (VStr "stopped")
        ↔ running_processes t !! bot_id = None)).
Proof.
  intros (name & user & path & ty & created & Hdb & _)%upload_bot_stores.
  eexists. split; [rewrite Hdb; apply lookup_insert_eq|].
  split; [apply new_record_fields|]. split; [reflexivity|].
  split; [apply new_record_status|]. split.
  - intros env1 env2.
    rewrite stop_bot_registry, start_bot_registry, Hdb.
    split; apply lookup_insert_eq.
  - intros env' t Hrec.
    destruct (running_processes t !! bot_id) as [entry|] eqn:Hrun.
    + rewrite reported_status_running by eauto. split; split; try done; eauto.
    + rewrite reported_status_stopped by eauto. split; split; try done.
Qed.

Lemma stored_status_is_not_the_reported_status_witness :
  ∃ record,
    bots_db Sample.uploaded !! Sample.echoer_id = Some record ∧
    record !! "status" = Some (VStr "stopped") ∧
    bots_db Sample.started !! Sample.echoer_id = Some record ∧
    reported_status (Sample.quiet 1700000010) Sample.echoer_id Sample.started
    = Some (VStr "running").
Proof.
  destruct (stored_status_is_not_the_reported_status Sample.keep
              (Sample.quiet 1700000000) Sample.echoer initial
              "Bot uploaded successfully" Sample.echoer_id Sample.uploaded)
    as (record & Hrec & _ & _ & Hstatus & Hwrites & Hreport);
    [vm_compute; reflexivity|].
  exists record. split; [exact Hrec|]. split; [exact Hstatus|].
  destruct (Hwrites (Sample.quiet 1700000008) (Sample.quiet 1700000007)) as [Hstarted _].
  split; [exact Hstarted|].
  apply (Hreport (Sample.quiet 1700000010) Sample.started Hstarted).
  vm_compute. eauto.
Defined.

(** ** File types: accepted by the upload, refused by the start *)

Lemma launch_command_unsupported ty filepath :
  ty ∉ ALLOWED_EXTENSIONS → launch_command (VStr ty) filepath = None.
Proof.
  unfold ALLOWED_EXTENSIONS, launch_command. intros Hty. cbn.
  destruct (String.eqb_spec ty "py") as [->|_]; [set_solver|].
  destruct (String.eqb_spec ty "js") as [->|_]; [set_solver|]. done.
Qed.

(** A stopped bot whose stored type is not literally [py] or [js] is
    refused, and nothing changes. *)
Lemma start_bot_unsupported env bot_id s record filepath ty :
  bots_db s !! bot_id = Some record →
  running_processes s !! bot_id = None →
  record !! "filepath" = Some filepath →
  record !! "file_type" = Some (VStr ty) →
  ty ∉ ALLOWED_EXTENSIONS →
  start_bot env bot_id s = (Fail 400 "Unsupported file type", s).
Proof.
  intros Hrec Hrun Hpath Hty Hbad. unfold start_bot.
  by rewrite Hrec, Hrun, Hpath, Hty, launch_command_unsupported.
Qed.

Lemma start_many_unsupported envs bot_id s record filepath ty :
  bots_db s !! bot_id = Some record →
  running_processes s !! bot_id = None →
  record !! "filepath" = Some filepath →
  record !! "file_type" = Some (VStr ty) →
  ty ∉ ALLOWED_EXTENSIONS →
  start_many envs bot_id s
  = (replicate (length envs) (Fail 400 "Unsupported file type"), s).
Proof.
  intros Hrec Hrun Hpath Hty Hbad. induction envs as [|env envs IH]; [done|].
  cbn [start_many].
  rewrite (start_bot_unsupported env bot_id s record filepath ty) by done.
  by rewrite IH.
Qed.

(** The check of the upload lowers the extension before it compares. *)
Lemma allowed_file_lower f ext :
  allowed_file f = true → extension f = Some ext →
  PyStr.lower ext ∈ ALLOWED_EXTENSIONS.
Proof.
  unfold allowed_file. intros Hok Hext. rewrite Hext in Hok.
  apply andb_prop in Hok as [_ Hok]. by apply bool_decide_eq_true in Hok.
Qed.

(** C10.  An upload whose file name has an extension that is accepted only
    after lowering (such as [.PY]) is registered, with the extension stored
    as it was written; every later start of that bot, however many and in
    whatever environment, is refused with "Unsupported file type", 400, and
    leaves the state as it is. *)
Theorem uppercase_extension_never_starts
    secure_filename env req s file username bot_name ext :
  valid_upload secure_filename env req username bot_name file ext →
  ext ∉ ALLOWED_EXTENSIONS →
  well_formed (bots_db s) →
  (holds (bots_db s) username < MAX_BOTS_PER_USER)%nat →
  running_processes s !! generate_bot_id username bot_name (clock env) = None →
  ∃ bot_id s' record,
    upload_bot secure_filename env req s
    = (OkUpload "Bot uploaded successfully" bot_id, s') ∧
    PyStr.lower ext ∈ ALLOWED_EXTENSIONS ∧
    bots_db s' !! bot_id = Some record ∧
    record !! "file_type" = Some (VStr ext) ∧
    ∀ envs,
      start_many envs bot_id s'
      = (replicate (length envs) (Fail 400 "Unsupported file type"), s').
Proof.
  intros Hvalid Hbad Hwf Hquota Hrun.
  rewrite (upload_bot_accepts secure_filename env req s file username bot_name ext)
    by done.
  eexists _, _, _. split; [reflexivity|].
  destruct Hvalid as (_ & _ & _ & _ & _ & Hok & Hext & _).
  split; [by eapply allowed_file_lower|].
  split; [apply lookup_insert_eq|]. split; [apply new_record_file_type|].
  intros envs. eapply start_many_unsupported; try done.
  - apply lookup_insert_eq.
  - apply new_record_filepath.
  - apply new_record_file_type.
Qed.

Lemma uppercase_extension_never_starts_witness :
  allowed_file "shout.PY" = true ∧
  ∃ s',
    upload_bot Sample.keep (Sample.quiet 1700000000) Sample.shouter initial
    = (OkUpload "Bot uploaded successfully" "alice_shouter_1700000000", s') ∧
    start_many [Sample.quiet 1700000001; Sample.stubborn 1700000002]
      "alice_shouter_1700000000" s'
    = ([Fail 400 "Unsupported file type"; Fail 400 "Unsupported file type"], s').
Proof.
  split; [vm_compute; reflexivity|].
  destruct (uppercase_extension_never_starts Sample.keep (Sample.quiet 1700000000)
              Sample.shouter initial
              {| filename := "shout.PY"; content := "print(3)" |}
              "alice" "shouter" "PY")
    as (bot_id & s' & record & Hup & _ & _ & _ & Hstarts).
  - repeat split; try done; vm_compute; reflexivity.
  - unfold ALLOWED_EXTENSIONS. rewrite !elem_of_cons, elem_of_nil.
    intros [Heq|[Heq|[]]]; discriminate Heq.
  - apply well_formed_empty.
  - vm_compute. lia.
  - reflexivity.
  - exists s'. split.
    + rewrite Hup. f_equal. f_equal.
      assert (Hid : fst (upload_bot Sample.keep (Sample.quiet 1700000000)
                           Sample.shouter initial)
                    = OkUpload "Bot uploaded successfully" "alice_shouter_1700000000")
        by (vm_compute; reflexivity).
      rewrite Hup in Hid. cbn in Hid. by injection Hid as ->.
    + assert (Hid : fst (upload_bot Sample.keep (Sample.quiet 1700000000)
                           Sample.shouter initial)
                    = OkUpload "Bot uploaded successfully" "alice_shouter_1700000000")
        by (vm_compute; reflexivity).
      rewrite Hup in Hid. cbn in Hid. injection Hid as ->.
      apply (Hstarts [Sample.quiet 1700000001; Sample.stubborn 1700000002]).
Defined.

(** ** Identifiers *)

(** The clock enters the identifier in whole seconds only, so the
    identifier of an owner and a name is a function of the second. *)
Lemma generate_bot_id_same_second env1 env2 username bot_name :
  clock env1 = clock env2 →
  generate_bot_id username bot_name (clock env1)
  = generate_bot_id username bot_name (clock env2).
Proof. by intros ->. Qed.

(** In different seconds the same owner and name get different
    identifiers. *)
Lemma generate_bot_id_other_second username bot_name t1 t2 :
  generate_bot_id username bot_name t1 = generate_bot_id username bot_name t2 →
  t1 = t2.
Proof.
  unfold generate_bot_id, PyStr.str_of_int. intros Heq.
  do 4 apply String.app_inj in Heq. by apply (inj pretty) in Heq.
Qed.

(** The separator can also be part of a name: two different owners can be
    given the same identifier. *)
Lemma generate_bot_id_other_owner :
  generate_bot_id "a_b" "c" 1700000000 = generate_bot_id "a" "b_c" 1700000000.
Proof. vm_compute. reflexivity. Qed.

(** Two accepted uploads of the same owner and bot name within one second
    get one identifier, and the second record replaces the first. *)
Lemma upload_bot_twice_in_a_second
    secure_filename env1 env2 req1 req2 s file1 file2 username bot_name ext1 ext2 :
  valid_upload secure_filename env1 req1 username bot_name file1 ext1 →
  valid_upload secure_filename env2 req2 username bot_name file2 ext2 →
  clock env1 = clock env2 →
  well_formed (bots_db s) →
  (S (holds (bots_db s) username) < MAX_BOTS_PER_USER)%nat →
  bots_db s !! generate_bot_id username bot_name (clock env1) = None →
  let r1 := upload_bot secure_filename env1 req1 s in
  let r2 := upload_bot secure_filename env2 req2 (snd r1) in
  ∃ bot_id,
    fst r1 = OkUpload "Bot uploaded successfully" bot_id ∧
    fst r2 = OkUpload "Bot uploaded successfully" bot_id ∧
    size (bots_db (snd r2)) = size (bots_db (snd r1)) ∧
    bots_db (snd r2) !! bot_id
    = Some (new_record bot_id bot_name username
              (script_path secure_filename bot_id ext2) ext2 (now_iso env2)).
Proof.
  intros Hv1 Hv2 Hclock Hwf Hquota Hfresh r1 r2. subst r1 r2.
  rewrite (upload_bot_accepts secure_filename env1 req1 s file1 username bot_name ext1)
    by (try done; lia).
  cbn [fst snd].
  set (bot_id := generate_bot_id username bot_name (clock env1)).
  rewrite (upload_bot_accepts secure_filename env2 req2 _ file2 username bot_name ext2);
    [|done|by apply well_formed_insert|].
  - rewrite <- Hclock. fold bot_id. exists bot_id. cbn.
    split; [done|]. split; [done|]. split; [|apply lookup_insert_eq].
    apply map_size_insert_Some. rewrite lookup_insert_eq. eauto.
  - cbn. rewrite holds_insert_fresh by done. by rewrite decide_True.
Qed.

(** C7, on the code.  Two uploads of the same owner with the same bot name
    that are served within one second are both accepted and are both given
    the identifier of that second; the registry has one entry afterwards,
    the record of the second upload, and the first one is lost. *)
Theorem rapid_uploads_share_an_id :
  let r1 := upload_bot Sample.keep (Sample.quiet 1700000000) Sample.echoer initial in
  let r2 := upload_bot Sample.keep (Sample.stubborn 1700000000) Sample.echoer2 (snd r1) in
  fst r1 = OkUpload "Bot uploaded successfully" "alice_echoer_1700000000" ∧
  fst r2 = OkUpload "Bot uploaded successfully" "alice_echoer_1700000000" ∧
  bots_db (snd r1) !! "alice_echoer_1700000000"
  = Some (new_record "alice_echoer_1700000000" "echoer" "alice"
            "/tmp/bots/alice_echoer_1700000000.py" "py" "2023-11-14T22:13:20") ∧
  bots_db (snd r2) !! "alice_echoer_1700000000"
  = Some (new_record "alice_echoer_1700000000" "echoer" "alice"
            "/tmp/bots/alice_echoer_1700000000.js" "js" "2023-11-14T22:13:25") ∧
  size (bots_db (snd r2)) = 1%nat.
Proof. cbv zeta. repeat split; vm_compute; reflexivity. Qed.

(** ** The quota *)

(** An owner with three bots is refused. *)
Lemma upload_fourth_refused :
  holds (bots_db Sample.full) "alice" = 3%nat ∧
  upload_bot Sample.keep (Sample.quiet 1700000004) Sample.echoer Sample.full
  = (Fail 403 "Free tier limit: 3 bots per user", Sample.full).
Proof. split; vm_compute; reflexivity. Qed.

(** C4, on the code.  An owner who holds one bot, below the limit of three,
    uploads a valid file under the same bot name within the second of the
    first upload: the upload is accepted, but the registry has no new
    entry, it has the same identifiers as before, and the owner still holds
    one bot. *)
Theorem upload_below_quota_adds_no_entry :
  let s := Sample.uploaded in
  let r := upload_bot Sample.keep (Sample.stubborn 1700000000) Sample.echoer2 s in
  holds (bots_db s) "alice" = 1%nat ∧
  allowed_file "echo.js" = true ∧
  fst r = OkUpload "Bot uploaded successfully" "alice_echoer_1700000000" ∧
  size (bots_db (snd r)) = size (bots_db s) ∧
  dom (bots_db (snd r)) = dom (bots_db s) ∧
  holds (bots_db (snd r)) "alice" = 1%nat.
Proof.
  cbv zeta. repeat split; vm_compute; reflexivity.
Qed.

(** ** The tail of the log *)

Lemma split_no_newline l :
  no_newline l → PyStr.split PyStr.newline l = [l].
Proof.
  unfold no_newline. induction l as [|a l IH]; cbn; [done|].
  destruct (Ascii.eqb a PyStr.newline); [done|].
  intros Hl. by rewrite (IH Hl).
Qed.

Lemma split_line_cons l rest :
  no_newline l →
  PyStr.split PyStr.newline (l +:+ String PyStr.newline rest)
  = l :: PyStr.split PyStr.newline rest.
Proof.
  unfold no_newline. induction l as [|a l IH]; simpl.
  - done.
  - destruct (Ascii.eqb a PyStr.newline); [done|].
    intros Hl. by rewrite (IH Hl).
Qed.

Lemma split_line l rest :
  no_newline l →
  PyStr.split PyStr.newline (l +:+ PyStr.NL +:+ rest)
  = l :: PyStr.split PyStr.newline rest.
Proof. apply split_line_cons. Qed.

(** Splitting undoes joining, for lines of text. *)
Lemma split_join ls :
  ls ≠ [] → Forall no_newline ls →
  PyStr.split PyStr.newline (PyStr.join PyStr.NL ls) = ls.
Proof.
  induction ls as [|l ls IH]; [done|]. intros _ Hls.
  apply Forall_cons in Hls as [Hl Hls]. destruct ls as [|l' ls].
  - by apply split_no_newline.
  - change (PyStr.join PyStr.NL (l :: l' :: ls))
      with (l +:+ PyStr.NL +:+ PyStr.join PyStr.NL (l' :: ls)).
    rewrite split_line by done. f_equal. by apply IH.
Qed.

(** A file whose lines all end in a newline is the join of its lines and
    of one empty string. *)
Lemma terminated_join ls : terminated ls = PyStr.join PyStr.NL (ls ++ [EmptyString])%list.
Proof.
  induction ls as [|l ls IH]; [done|]. cbn [terminated foldr app].
  fold (terminated ls). rewrite IH.
  by destruct ls.
Qed.

Lemma split_terminated ls :
  Forall no_newline ls →
  PyStr.split PyStr.newline (terminated ls) = (ls ++ [EmptyString])%list.
Proof.
  intros Hls. rewrite terminated_join. apply split_join.
  - by destruct ls.
  - apply Forall_app. split; [done|]. by apply Forall_singleton.
Qed.

(** A text that does not end in a newline: the last 1000 lines are kept. *)
Lemma tail_logs_unterminated ls :
  Forall no_newline ls → (1000 < length ls)%nat →
  tail_logs (PyStr.join PyStr.NL ls) = PyStr.join PyStr.NL (PyStr.last_n 1000 ls).
Proof.
  intros Hls Hlen. unfold tail_logs.
  rewrite split_join; [|by destruct ls; [cbn in Hlen; lia|]|done].
  by destruct (Nat.ltb_spec 1000 (length ls)); [|lia].
Qed.

(** A log as a process writes it, every line ended by a newline: the empty
    string after the last newline is counted as a line, and the last 999
    lines are kept. *)
Lemma tail_logs_terminated ls :
  Forall no_newline ls → (1000 ≤ length ls)%nat →
  tail_logs (terminated ls) = terminated (PyStr.last_n 999 ls).
Proof.
  intros Hls Hlen. unfold tail_logs. rewrite split_terminated by done.
  rewrite length_app. cbn [length].
  destruct (Nat.ltb_spec 1000 (length ls + 1)); [|lia].
  rewrite terminated_join. f_equal. unfold PyStr.last_n.
  rewrite length_app. cbn [length].
  rewrite drop_app_le by lia. f_equal. f_equal. lia.
Qed.

(** A short log is returned as it is. *)
Lemma tail_logs_short ls :
  Forall no_newline ls → (length ls < 1000)%nat →
  tail_logs (terminated ls) = terminated ls.
Proof.
  intros Hls Hlen. unfold tail_logs. rewrite split_terminated by done.
  rewrite length_app. cbn [length].
  by destruct (Nat.ltb_spec 1000 (length ls + 1)); [lia|].
Qed.

(** Reading in text mode changes nothing in a text without a carriage
    return. *)
Lemma universal_newlines_no_cr s : no_cr s → PyStr.universal_newlines s = s.
Proof.
  unfold no_cr. induction s as [|a s IH]; simpl; [done|].
  destruct (Ascii.eqb a PyStr.cr); [done|]. intros Hs. by rewrite IH.
Qed.

Lemma numbered_1500_lines :
  Forall no_newline (Sample.numbered 1 1500) ∧
  length (Sample.numbered 1 1500) = 1500%nat ∧
  PyStr.last_n 1000 (Sample.numbered 1 1500) = Sample.numbered 501 1000 ∧
  PyStr.last_n 999 (Sample.numbered 1 1500) = Sample.numbered 502 999.
Proof.
  split; [|repeat split; vm_compute; reflexivity].
  unfold no_newline. apply (bool_decide_unpack _). vm_compute. exact I.
Qed.

(** C8, on the code.  A registered bot has written 1500 lines to its log,
    each ended by a newline.  The logs endpoint answers with lines 502 to
    1500, the last 999 lines, and not with the last 1000 lines 501 to 1500:
    the empty string that follows the final newline takes the place of a
    line. *)
Theorem get_bot_logs_1500_lines_returns_999 :
  let ls := Sample.numbered 1 1500 in
  is_Some (bots_db Sample.logged !! Sample.echoer_id) ∧
  fs Sample.logged !! log_path Sample.echoer_id = Some (terminated ls) ∧
  length ls = 1500%nat ∧
  get_bot_logs (Sample.quiet 1700000040) Sample.echoer_id Sample.logged
  = (OkLogs (terminated (PyStr.last_n 999 ls)), Sample.logged) ∧
  terminated (PyStr.last_n 999 ls) ≠ terminated (PyStr.last_n 1000 ls) ∧
  terminated (PyStr.last_n 999 ls) ≠ PyStr.join PyStr.NL (PyStr.last_n 1000 ls).
Proof.
  cbv zeta. destruct numbered_1500_lines as (Hlines & Hlen & _ & _).
  split; [vm_compute; eauto|]. split; [vm_compute; reflexivity|].
  split; [exact Hlen|]. split.
  - unfold get_bot_logs.
    replace (bots_db Sample.logged !! Sample.echoer_id)
      with (Some (new_record Sample.echoer_id "echoer" "alice"
                    "/tmp/bots/alice_echoer_1700000000.py" "py" "2023-11-14T22:13:20"))
      by (vm_compute; reflexivity).
    replace (fs Sample.logged !! log_path Sample.echoer_id)
      with (Some (terminated (Sample.numbered 1 1500)))
      by (vm_compute; reflexivity).
    cbn [Sample.quiet open_fault read_fault].
    rewrite universal_newlines_no_cr by (vm_compute; reflexivity).
    rewrite tail_logs_terminated; [done|done|lia].
  - split; intros Heq; apply (f_equal String.length) in Heq;
      vm_compute in Heq; discriminate Heq.
Qed.

(** * Further properties of the code *)

(** ** File names *)

Lemma rsplit1_None sep s :
  PyStr.rsplit1 sep s = None ↔ PyStr.contains sep s = false.
Proof.
  induction s as [|a s IH]; simpl; [done|].
  destruct (PyStr.rsplit1 sep s) as [[h t]|].
  - destruct (Ascii.eqb a sep); [done|].
    split; [done|]. intros Hs. by apply IH in Hs.
  - destruct (Ascii.eqb a sep); [done|]. split; [intros _; by apply IH | done].
Qed.

Lemma rsplit1_sound sep s h t :
  PyStr.rsplit1 sep s = Some (h, t) →
  s = h +:+ String sep t ∧ PyStr.contains sep t = false.
Proof.
  revert h. induction s as [|a s IH]; intros h; simpl; [done|].
  destruct (PyStr.rsplit1 sep s) as [[h' t']|] eqn:Hs.
  - intros [= <- <-]. by destruct (IH h' eq_refl) as [-> Ht].
  - apply rsplit1_None in Hs. destruct (Ascii.eqb_spec a sep) as [->|Hne]; [|done].
    by intros [= <- <-].
Qed.

Lemma rsplit1_complete sep h t :
  PyStr.contains sep t = false →
  PyStr.rsplit1 sep (h +:+ String sep t) = Some (h, t).
Proof.
  intros Ht. induction h as [|a h IH]; simpl.
  - apply rsplit1_None in Ht. by rewrite Ht, Ascii.eqb_refl.
  - by rewrite IH.
Qed.

Lemma rsplit1_Some sep s h t :
  PyStr.rsplit1 sep s = Some (h, t)
  ↔ s = h +:+ String sep t ∧ PyStr.contains sep t = false.
Proof.
  split; [apply rsplit1_sound|]. intros [-> Ht]. by apply rsplit1_complete.
Qed.

(** X1.  [allowed_file] accepts exactly the names that end in a dot and an
    extension without a dot whose lower-case form is [py] or [js]; whatever
    stands before that last dot, even nothing, does not matter. *)
Theorem allowed_file_spec f :
  allowed_file f = true
  ↔ ∃ stem ext,
      f = stem +:+ "." +:+ ext ∧
      PyStr.contains PyStr.dot ext = false ∧
      PyStr.lower ext ∈ ALLOWED_EXTENSIONS.
Proof.
  unfold allowed_file, extension. split.
  - intros [_ Hext]%andb_prop.
    destruct (PyStr.rsplit1 PyStr.dot f) as [[stem ext]|] eqn:Hsplit; [|done].
    apply rsplit1_Some in Hsplit as [-> Hnodot]. cbn in Hext.
    apply bool_decide_eq_true in Hext. by exists stem, ext.
  - intros (stem & ext & -> & Hnodot & Hlower).
    assert (Hsplit : PyStr.rsplit1 PyStr.dot (stem +:+ "." +:+ ext) = Some (stem, ext))
      by (by apply rsplit1_Some).
    rewrite Hsplit. cbn [fmap option_fmap option_map snd].
    apply andb_true_intro. split; [|by apply bool_decide_eq_true].
    destruct (PyStr.contains PyStr.dot (stem +:+ "." +:+ ext)) eqn:Hdot; [done|].
    apply rsplit1_None in Hdot. congruence.
Qed.

(** ** Identifiers *)

Lemma underscore_split u1 u2 r1 r2 :
  no_underscore u1 → no_underscore u2 →
  u1 +:+ String "_" r1 = u2 +:+ String "_" r2 → u1 = u2 ∧ r1 = r2.
Proof.
  unfold no_underscore. revert u2.
  induction u1 as [|a u1 IH]; intros [|b u2]; simpl; intros H1 H2 Heq.
  - by injection Heq as ->.
  - injection Heq as <- _. by rewrite Ascii.eqb_refl in H2.
  - injection Heq as -> _. by rewrite Ascii.eqb_refl in H1.
  - injection Heq as -> Heq.
    destruct (Ascii.eqb b "_"); [done|].
    destruct (IH u2 H1 H2 Heq) as [-> ->]. done.
Qed.

(** X2.  For owners and bot names without an underscore the identifier
    determines the owner, the name and the second: two uploads get the same
    identifier only if they agree on all three. *)
Theorem generate_bot_id_inj u1 n1 t1 u2 n2 t2 :
  no_underscore u1 → no_underscore u2 →
  no_underscore n1 → no_underscore n2 →
  generate_bot_id u1 n1 t1 = generate_bot_id u2 n2 t2 →
  u1 = u2 ∧ n1 = n2 ∧ t1 = t2.
Proof.
  intros Hu1 Hu2 Hn1 Hn2 Heq. unfold generate_bot_id, PyStr.str_of_int in Heq.
  apply (underscore_split u1 u2) in Heq as [-> Heq]; [|done..].
  apply (underscore_split n1 n2) in Heq as [-> Heq]; [|done..].
  by apply (inj pretty) in Heq as ->.
Qed.

Lemma generate_bot_id_inj_witness :
  generate_bot_id "alice" "echoer" 1700000000 = generate_bot_id "alice" "echoer" 1700000000
  ∧ ("alice" = "alice" ∧ "echoer" = "echoer" ∧ 1700000000 = 1700000000).
Proof.
  split; [reflexivity|].
  apply (generate_bot_id_inj "alice" "echoer" 1700000000 "alice" "echoer" 1700000000);
    reflexivity.
Defined.

(** ** Upload: what a success means, what a refusal leaves *)

Lemma uploaded_reachable : reachable Sample.keep Sample.uploaded.
Proof.
  unfold reachable, Sample.uploaded.
  eapply rtc_l; [apply (step_upload _ (Sample.quiet 1700000000) Sample.echoer)|].
  apply rtc_refl.
Qed.

Lemma started_reachable : reachable Sample.keep Sample.started.
Proof.
  unfold reachable, Sample.started.
  eapply rtc_r; [apply uploaded_reachable|].
  apply (step_start _ (Sample.quiet 1700000007) Sample.echoer_id).
Qed.

Lemma echoer_valid t :
  valid_upload Sample.keep (Sample.quiet t) Sample.echoer "alice" "echoer"
    {| filename := "echo.py"; content := "print(1)" |} "py".
Proof. repeat split; done. Qed.

Lemma upload_bot_quota_witness :
  (holds (bots_db Sample.uploaded) "alice" < MAX_BOTS_PER_USER)%nat ∧
  size (bots_db (snd (upload_bot Sample.keep (Sample.quiet 1700000005)
                        Sample.echoer Sample.uploaded)))
  = S (size (bots_db Sample.uploaded)).
Proof.
  assert (Hlt : (holds (bots_db Sample.uploaded) "alice" < MAX_BOTS_PER_USER)%nat)
    by (vm_compute; lia).
  split; [exact Hlt|].
  destruct (upload_bot_quota Sample.keep (Sample.quiet 1700000005) Sample.echoer
              Sample.uploaded {| filename := "echo.py"; content := "print(1)" |}
              "alice" "echoer" "py") as [_ Hbelow].
  - apply echoer_valid.
  - apply (reachable_well_formed Sample.keep), uploaded_reachable.
  - vm_compute. reflexivity.
  - destruct (Hbelow Hlt) as (_ & Hsize & _). exact Hsize.
Defined.

(** X4.  An accepted upload was a valid one, and it did exactly this: the
    content of the file is written at the script path of the new
    identifier, the record that points to that path is stored under the
    identifier, and the process table and the child processes are
    untouched. *)
Theorem upload_bot_success secure_filename env req s message bot_id s' :
  upload_bot secure_filename env req s = (OkUpload message bot_id, s') →
  ∃ file username bot_name ext,
    bot_file req = Some file ∧
    form_username req = Some username ∧ username ≠ EmptyString ∧
    form_bot_name req = Some bot_name ∧ bot_name ≠ EmptyString ∧
    allowed_file (filename file) = true ∧
    extension (filename file) = Some ext ∧
    user_bot_count (bots_db s) username ≠ None ∧
    bot_id = generate_bot_id username bot_name (clock env) ∧
    bots_db s'
    = <[bot_id := new_record bot_id bot_name username
                    (script_path secure_filename bot_id ext) ext (now_iso env)]>
        (bots_db s) ∧
    fs s' = <[script_path secure_filename bot_id ext := content file]> (fs s) ∧
    fs s' !! script_path secure_filename bot_id ext = Some (content file) ∧
    running_processes s' = running_processes s ∧
    os_procs s' = os_procs s.
Proof.
  unfold upload_bot.
  destruct (bot_file req) as [file|]; [|done].
  destruct (form_username req) as [[|a username]|]; try done.
  destruct (form_bot_name req) as [[|b bot_name]|]; try done.
  cbn [truthy negb orb default from_option id].
  destruct (user_bot_count _ _) as [n|] eqn:Hcount; [|done].
  destruct (MAX_BOTS_PER_USER <=? n)%nat; [done|].
  destruct (_ && allowed_file (filename file)) eqn:Hok; [|done].
  apply andb_prop in Hok as [_ Hok].
  destruct (extension (filename file)) as [ext|] eqn:Hext; [|done].
  destruct (save_fault env _); [done|]. intros [= <- <- <-].
  exists file, (String a username), (String b bot_name), ext.
  repeat split; try done; [congruence|]. cbn. apply lookup_insert_eq.
Qed.

Lemma upload_bot_success_witness :
  ∃ file, bot_file Sample.echoer = Some file ∧
    fs Sample.uploaded !! script_path Sample.keep Sample.echoer_id "py"
    = Some (content file).
Proof.
  destruct (upload_bot_success Sample.keep (Sample.quiet 1700000000) Sample.echoer
              initial "Bot uploaded successfully" Sample.echoer_id Sample.uploaded)
    as (file & username & bot_name & ext & Hfile & _ & _ & _ & _ & _ & Hext & _
        & _ & _ & _ & Hfs & _); [vm_compute; reflexivity|].
  cbn in Hfile. injection Hfile as <-.
  vm_compute in Hext. injection Hext as <-.
  eexists. split; [reflexivity|]. exact Hfs.
Defined.

(** X5.  A refused upload changes nothing, and it is refused with 400 or
    with 403: no file is written and no record is stored before the checks
    have passed. *)
Theorem upload_bot_refusal secure_filename env req s code message s' :
  upload_bot secure_filename env req s = (Fail code message, s') →
  s' = s ∧ (code = 400 ∨ code = 403).
Proof.
  unfold upload_bot. repeat (case_match; try done); intros [= <- <- <-]; auto.
Qed.

Lemma upload_bot_refusal_witness :
  upload_bot Sample.keep (Sample.quiet 1700000004) Sample.echoer Sample.full
  = (Fail 403 "Free tier limit: 3 bots per user", Sample.full)
  ∧ Sample.full = Sample.full.
Proof.
  assert (Hup : upload_bot Sample.keep (Sample.quiet 1700000004) Sample.echoer Sample.full
                = (Fail 403 "Free tier limit: 3 bots per user", Sample.full))
    by (vm_compute; reflexivity).
  split; [exact Hup|].
  apply (upload_bot_refusal Sample.keep (Sample.quiet 1700000004) Sample.echoer
           Sample.full 403 "Free tier limit: 3 bots per user" Sample.full Hup).
Defined.

(** ** Start: what a success means, what a failed spawn leaves *)

Lemma launch_command_Some file_type filepath cmd :
  launch_command file_type filepath = Some cmd →
  (file_type = VStr "py" ∧ cmd = [VStr "python3"; filepath]) ∨
  (file_type = VStr "js" ∧ cmd = [VStr "node"; filepath]).
Proof.
  unfold launch_command.
  destruct (value_eqb file_type (VStr "py")) eqn:Hpy.
  - apply value_eqb_VStr in Hpy as ->. intros [= <-]. by left.
  - destruct (value_eqb file_type (VStr "js")) eqn:Hjs; [|done].
    apply value_eqb_VStr in Hjs as ->. intros [= <-]. by right.
Qed.

(** What a start that succeeds has found and what it has written when it
    returns. *)
Lemma start_bot_inversion env bot_id s message p s' :
  start_bot env bot_id s = (OkStart message p, s') →
  ∃ record filepath interpreter,
    bots_db s !! bot_id = Some record ∧
    running_processes s !! bot_id = None ∧
    record !! "filepath" = Some (VStr filepath) ∧
    ((record !! "file_type" = Some (VStr "py") ∧ interpreter = "python3") ∨
     (record !! "file_type" = Some (VStr "js") ∧ interpreter = "node")) ∧
    spawn env [interpreter; filepath] = inr p ∧
    running_processes s'
    = <[bot_id := {| pid := p;
                     process := {| popen_pid := p;
                                   popen_args := [interpreter; filepath] |};
                     log_file := log_path bot_id;
                     started_at := now_iso env |}]> (running_processes s) ∧
    os_procs s' = {[p]} ∪ os_procs s ∧
    fs s' = <[log_path bot_id := EmptyString]> (fs s) ∧
    bots_db s' = bots_db s ∧
    (∀ env', reported_status env' bot_id s' = Some (VStr "running")).
Proof.
  unfold start_bot.
  destruct (bots_db s !! bot_id) as [record|] eqn:Hrec; [|done].
  destruct (running_processes s !! bot_id) eqn:Hrun; [done|].
  destruct (record !! "filepath") as [filepath|] eqn:Hpath; [|done].
  destruct (record !! "file_type") as [file_type|] eqn:Hty; [|done].
  destruct (launch_command file_type filepath) as [cmd|] eqn:Hcmd; [|done].
  destruct (open_fault env (log_path bot_id)); [done|].
  destruct (argv cmd) as [args|] eqn:Hargs; [|done].
  destruct (spawn env args) as [e|q] eqn:Hspawn; [done|].
  intros [= <- <- <-].
  assert (∃ path interpreter,
             filepath = VStr path ∧ args = [interpreter; path] ∧
             ((file_type = VStr "py" ∧ interpreter = "python3") ∨
              (file_type = VStr "js" ∧ interpreter = "node")))
    as (path & interpreter & -> & -> & Hkind).
  { apply launch_command_Some in Hcmd as [[-> ->]|[-> ->]];
      destruct filepath as [path| |]; try done; cbn in Hargs;
      injection Hargs as <-; eauto 10. }
  exists record, path, interpreter.
  split; [done|]. split; [done|]. split; [done|].
  split; [by destruct Hkind as [[-> ->]|[-> ->]]; [left|right]|].
  split; [done|]. split; [done|]. split; [done|]. split; [done|].
  split; [done|].
  intros env'. apply reported_status_running; cbn; [eauto|].
  rewrite lookup_insert_eq. eauto.
Qed.



(** X7.  When the child cannot be spawned the start is answered 500 with
    the text of the exception and the bot stays stopped, but its log file
    has already been emptied: the log of the previous run is lost. *)
Theorem start_bot_spawn_failure env bot_id s record filepath ty e :
  bots_db s !! bot_id = Some record →
  running_processes s !! bot_id = None →
  record !! "filepath" = Some (VStr filepath) →
  record !! "file_type" = Some (VStr ty) →
  ty ∈ ALLOWED_EXTENSIONS →
  open_fault env (log_path bot_id) = None →
  spawn env [if String.eqb ty "py" then "python3" else "node"; filepath] = inl e →
  let r := start_bot env bot_id s in
  fst r = Fail 500 ("Failed to start bot: " +:+ str_of_exn e) ∧
  running_processes (snd r) = running_processes s ∧
  os_procs (snd r) = os_procs s ∧
  bots_db (snd r) = bots_db s ∧
  fs (snd r) = <[log_path bot_id := EmptyString]> (fs s) ∧
  (∀ env', reported_status env' bot_id (snd r) = Some (VStr "stopped")).
Proof.
  intros Hrec Hrun Hpath Hty Hok Hopen Hspawn r. subst r. unfold start_bot.
  rewrite Hrec, Hrun, Hpath, Hty.
  assert (Hcmd : launch_command (VStr ty) (VStr filepath)
                 = Some [VStr (if String.eqb ty "py" then "python3" else "node");
                         VStr filepath]).
  { unfold ALLOWED_EXTENSIONS in Hok. rewrite !elem_of_cons, elem_of_nil in Hok.
    by destruct Hok as [->|[->|[]]]. }
  rewrite Hcmd, Hopen. cbn [argv mapM mbind option_bind mret option_ret].
  cbn. rewrite Hspawn. cbn. repeat split.
  intros env'. apply reported_status_stopped; cbn; eauto.
Qed.

Lemma start_bot_spawn_failure_witness :
  is_Some (fs Sample.logged !! log_path Sample.echoer_id) ∧
  fst (start_bot Faulty.no_interpreter Sample.echoer_id Sample.logged)
  = Fail 500 "Failed to start bot: [Errno 2] No such file or directory: 'python3'" ∧
  fs (snd (start_bot Faulty.no_interpreter Sample.echoer_id Sample.logged))
    !! log_path Sample.echoer_id
  = Some EmptyString.
Proof.
  split; [vm_compute; eauto|].
  destruct (start_bot_spawn_failure Faulty.no_interpreter Sample.echoer_id Sample.logged
              (new_record Sample.echoer_id "echoer" "alice"
                 "/tmp/bots/alice_echoer_1700000000.py" "py" "2023-11-14T22:13:20")
              "/tmp/bots/alice_echoer_1700000000.py" "py"
              (OtherError "[Errno 2] No such file or directory: 'python3'"))
    as (Hresp & _ & _ & _ & Hfs & _);
    try (vm_compute; reflexivity).
  - unfold ALLOWED_EXTENSIONS. apply elem_of_cons. by left.
  - split; [exact Hresp|]. rewrite Hfs. apply lookup_insert_eq.
Defined.

(** ** Start and stop together *)

(** What a success of [stop_bot] means. *)
Lemma stop_bot_success env bot_id s message s' :
  stop_bot env bot_id s = (OkMessage message, s') →
  ∃ entry,
    running_processes s !! bot_id = Some entry ∧
    s' = forget_process bot_id (process entry) s.
Proof.
  unfold stop_bot.
  destruct (running_processes s !! bot_id) as [entry|]; [|done].
  destruct (terminate_and_wait env (process entry)) as [e|].
  - destruct e; try done. destruct (kill_fault env (process entry)); [done|].
    intros [= <- <-]. eauto.
  - intros [= <- <-]. eauto.
Qed.



(** ** Delete: finality, frame, and files that cannot be removed *)

(** X10.  A delete is final for the registry: whatever happened to the
    process and to the files, every later status, logs, start and delete
    request for the identifier is answered "Bot not found", 404, and changes
    nothing. *)
Theorem delete_bot_final env bot_id s :
  is_Some (bots_db s !! bot_id) →
  let s' := snd (delete_bot env bot_id s) in
  fst (delete_bot env bot_id s) = OkMessage "Bot deleted successfully" ∧
  ∀ env',
    get_bot_status env' bot_id s' = (Fail 404 "Bot not found", s') ∧
    get_bot_logs env' bot_id s' = (Fail 404 "Bot not found", s') ∧
    start_bot env' bot_id s' = (Fail 404 "Bot not found", s') ∧
    delete_bot env' bot_id s' = (Fail 404 "Bot not found", s').
Proof.
  intros Hrec s'. destruct (delete_bot_registry env bot_id s Hrec) as [Hresp Hdb].
  split; [exact Hresp|]. intros env'.
  assert (Hgone : bots_db s' !! bot_id = None)
    by (subst s'; rewrite Hdb; apply lookup_delete_eq).
  unfold get_bot_status, get_bot_logs, start_bot, delete_bot. by rewrite Hgone.
Qed.

Lemma delete_bot_final_witness :
  is_Some (bots_db Sample.started !! Sample.echoer_id) ∧
  start_bot (Sample.quiet 1700000030) Sample.echoer_id Sample.orphaned
  = (Fail 404 "Bot not found", Sample.orphaned).
Proof.
  assert (Hrec : is_Some (bots_db Sample.started !! Sample.echoer_id))
    by (vm_compute; eauto).
  split; [exact Hrec|].
  destruct (delete_bot_final (Sample.stubborn 1700000009) Sample.echoer_id
              Sample.started Hrec) as [_ Hlater].
  destruct (Hlater (Sample.quiet 1700000030)) as (_ & _ & Hstart & _).
  exact Hstart.
Defined.

Lemma remove_if_exists_other env path files other :
  other ≠ path → snd (remove_if_exists env path files) !! other = files !! other.
Proof.
  intros Hne. unfold remove_if_exists.
  destruct (files !! path); [|done].
  destruct (remove_fault env path); [done|]. cbn. by rewrite lookup_delete_ne.
Qed.

(** X11.  A delete touches one bot only: the records and the process table
    entries of all other identifiers are as before, and so is every file
    other than the script of the deleted record and the log of the deleted
    identifier. *)
Theorem delete_bot_frame env bot_id s :
  let s' := snd (delete_bot env bot_id s) in
  (∀ other, other ≠ bot_id →
     bots_db s' !! other = bots_db s !! other ∧
     running_processes s' !! other = running_processes s !! other) ∧
  (∀ path,
     path ≠ log_path bot_id →
     (∀ record, bots_db s !! bot_id = Some record →
                record !! "filepath" ≠ Some (VStr path)) →
     fs s' !! path = fs s !! path).
Proof.
  intros s'. subst s'. unfold delete_bot.
  destruct (bots_db s !! bot_id) as [record|] eqn:Hrec; [|done].
  set (s1 := match running_processes s !! bot_id with
             | Some entry => _ | None => s end).
  assert (Hs1 : bots_db s1 = bots_db s ∧ fs s1 = fs s ∧
                ∀ other, other ≠ bot_id →
                  running_processes s1 !! other = running_processes s !! other).
  { subst s1. destruct (running_processes s !! bot_id) as [entry|]; [|done].
    destruct (terminate_and_wait env (process entry)); [done|]. cbn.
    repeat split. intros other Hne. by rewrite lookup_delete_ne. }
  destruct Hs1 as (Hdb & Hfs & Htable). cbn. split.
  - intros other Hne. rewrite Hdb, lookup_delete_ne by done. auto.
  - intros path Hlog Hscript. specialize (Hscript record eq_refl).
    rewrite Hfs. unfold delete_files.
    destruct (record !! "filepath") as [[script| |]|] eqn:Hpath; try done.
    assert (Hne : path ≠ script) by congruence.
    destruct (remove_if_exists env script (fs s)) as [[e|] files1] eqn:Hfirst.
    + rewrite <- (remove_if_exists_other env script (fs s) path Hne).
      by rewrite Hfirst.
    + rewrite remove_if_exists_other by done.
      rewrite <- (remove_if_exists_other env script (fs s) path Hne).
      by rewrite Hfirst.
Qed.

Lemma delete_bot_frame_witness :
  "alice_echoer_1700000001" ≠ "alice_echoer_1700000002" ∧
  bots_db (snd (delete_bot (Sample.quiet 1700000012) "alice_echoer_1700000002"
                  Sample.full)) !! "alice_echoer_1700000001"
  = bots_db Sample.full !! "alice_echoer_1700000001".
Proof.
  assert (Hne : "alice_echoer_1700000001" ≠ "alice_echoer_1700000002") by discriminate.
  split; [exact Hne|].
  destruct (delete_bot_frame (Sample.quiet 1700000012) "alice_echoer_1700000002"
              Sample.full) as [Hothers _].
  destruct (Hothers "alice_echoer_1700000001" Hne) as [Hdb _]. exact Hdb.
Defined.

(** X12.  The two files are removed in one [try]: when the script exists
    and its removal raises, the log file is not removed either; the delete
    still answers success and the record is gone. *)
Theorem delete_bot_script_fault env bot_id s record script e :
  bots_db s !! bot_id = Some record →
  record !! "filepath" = Some (VStr script) →
  is_Some (fs s !! script) →
  remove_fault env script = Some e →
  let r := delete_bot env bot_id s in
  fst r = OkMessage "Bot deleted successfully" ∧
  bots_db (snd r) !! bot_id = None ∧
  fs (snd r) = fs s.
Proof.
  intros Hrec Hpath [body Hbody] Hfault r. subst r. unfold delete_bot.
  rewrite Hrec. cbn. split; [done|]. split; [apply lookup_delete_eq|].
  unfold delete_files, remove_if_exists.
  rewrite Hpath.
  destruct (running_processes s !! bot_id) as [entry|];
    [destruct (terminate_and_wait env (process entry))|];
    cbn; by rewrite Hbody, Hfault.
Qed.

Lemma delete_bot_script_fault_witness :
  is_Some (fs Sample.logged !! "/tmp/bots/alice_echoer_1700000000.py") ∧
  is_Some (fs (snd (delete_bot Faulty.read_only_script Sample.echoer_id Sample.logged))
             !! log_path Sample.echoer_id) ∧
  bots_db (snd (delete_bot Faulty.read_only_script Sample.echoer_id Sample.logged))
    !! Sample.echoer_id = None.
Proof.
  assert (Hscript : is_Some (fs Sample.logged !! "/tmp/bots/alice_echoer_1700000000.py"))
    by (vm_compute; eauto).
  split; [exact Hscript|].
  destruct (delete_bot_script_fault Faulty.read_only_script Sample.echoer_id
              Sample.logged
              (new_record Sample.echoer_id "echoer" "alice"
                 "/tmp/bots/alice_echoer_1700000000.py" "py" "2023-11-14T22:13:20")
              "/tmp/bots/alice_echoer_1700000000.py"
              (OtherError "[Errno 13] Permission denied"))
    as (_ & Hgone & Hfs); try (vm_compute; reflexivity); [exact Hscript|].
  split; [|exact Hgone]. rewrite Hfs. vm_compute. eauto.
Defined.

Lemma delete_bot_clean_witness :
  is_Some (running_processes Sample.started !! Sample.echoer_id) ∧
  running_processes
    (snd (delete_bot (Sample.quiet 1700000011) Sample.echoer_id Sample.started))
    !! Sample.echoer_id = None ∧
  fs (snd (delete_bot (Sample.quiet 1700000011) Sample.echoer_id Sample.started))
    !! log_path Sample.echoer_id = None.
Proof.
  split; [vm_compute; eauto|].
  destruct (delete_bot_clean (Sample.quiet 1700000011) Sample.echoer_id Sample.started
              "echoer" "alice" "/tmp/bots/alice_echoer_1700000000.py" "py"
              "2023-11-14T22:13:20")
    as (_ & Hrun & _ & Hlog).
  - vm_compute. reflexivity.
  - intros entry _. reflexivity.
  - reflexivity.
  - reflexivity.
  - split; [exact Hrun | exact Hlog].
Defined.

(** ** Logs: the answer is a bounded tail of the file *)







Lemma contains_join_no c (ls : list string) :
  PyStr.contains c PyStr.NL = false →
  Forall (λ l, PyStr.contains c l = false) ls →
  PyStr.contains c (PyStr.join PyStr.NL ls) = false.
Proof.
  intros Hnl. assert (Happ : ∀ a b, PyStr.contains c a = false →
                                    PyStr.contains c b = false →
                                    PyStr.contains c (a +:+ b) = false).
  { intros a b Ha Hb. induction a as [|x a IH]; [done|].
    change (PyStr.contains c (String x (a +:+ b)) = false).
    simpl in *. destruct (Ascii.eqb x c); [done | auto]. }
  induction 1 as [|l ls Hl Hls IH]; [done|].
  destruct ls as [|l' ls]; [done|].
  change (PyStr.join PyStr.NL (l :: l' :: ls))
    with (l +:+ PyStr.NL +:+ PyStr.join PyStr.NL (l' :: ls)).
  auto.
Qed.



(** The carriage return is read as a line end of its own. *)
Lemma universal_newlines_cr :
  PyStr.universal_newlines (String "a" (String PyStr.cr (String "b" EmptyString)))
  = String "a" (String PyStr.newline (String "b" EmptyString)) ∧
  PyStr.universal_newlines
    (String "a" (String PyStr.cr (String PyStr.newline (String "b" EmptyString))))
  = String "a" (String PyStr.newline (String "b" EmptyString)).
Proof. split; reflexivity. Qed.

(** X15.  For a registered bot whose log file can be read, does not end in
    a newline and has more than 1000 lines, none of which holds a carriage
    return, the logs endpoint answers with exactly the last 1000 lines of
    the file, in their order. *)
Theorem get_bot_logs_unterminated env bot_id s ls :
  is_Some (bots_db s !! bot_id) →
  fs s !! log_path bot_id = Some (PyStr.join PyStr.NL ls) →
  open_fault env (log_path bot_id) = None →
  read_fault env (log_path bot_id) = None →
  Forall no_newline ls →
  Forall no_cr ls →
  (1000 < length ls)%nat →
  get_bot_logs env bot_id s
  = (OkLogs (PyStr.join PyStr.NL (PyStr.last_n 1000 ls)), s).
Proof.
  intros [record Hrec] Hlog Hopen Hread Hnl Hcr Hlen.
  unfold get_bot_logs. rewrite Hrec, Hlog, Hopen, Hread.
  rewrite universal_newlines_no_cr by (by apply contains_join_no).
  by rewrite tail_logs_unterminated.
Qed.

Lemma get_bot_logs_unterminated_witness :
  (1000 < length (Sample.numbered 1 1500))%nat ∧
  get_bot_logs (Sample.quiet 1700000041) Sample.echoer_id
    (set_fs <[log_path Sample.echoer_id := PyStr.join PyStr.NL (Sample.numbered 1 1500)]>
       Sample.uploaded)
  = (OkLogs (PyStr.join PyStr.NL (Sample.numbered 501 1000)),
     set_fs <[log_path Sample.echoer_id := PyStr.join PyStr.NL (Sample.numbered 1 1500)]>
       Sample.uploaded).
Proof.
  destruct numbered_1500_lines as (Hlines & Hlen & Hlast & _).
  assert (Hlong : (1000 < length (Sample.numbered 1 1500))%nat) by (rewrite Hlen; lia).
  split; [exact Hlong|].
  rewrite <- Hlast.
  apply (get_bot_logs_unterminated (Sample.quiet 1700000041) Sample.echoer_id _
           (Sample.numbered 1 1500)).
  - cbn. vm_compute. eauto.
  - cbn. apply lookup_insert_eq.
  - reflexivity.
  - reflexivity.
  - exact Hlines.
  - unfold no_cr. apply (bool_decide_unpack _). vm_compute. exact I.
  - exact Hlong.
Defined.

(** ** The listing of an owner's bots *)

(** The stats probe cannot fail the loop. *)
Lemma bot_info_of_inr env s bot_id bot_data :
  bot_info_of env s bot_id bot_data
  = inr (match running_processes s !! bot_id with
         | Some entry =>
             <["status" := VStr "running"]>
               (<["memory" := match probe env (pid entry) with
                              | Some (_, memory) => VFloat memory
                              | None => VInt 0
                              end]>
                  (<["cpu" := match probe env (pid entry) with
                              | Some (cpu, _) => VFloat cpu
                              | None => VInt 0
                              end]> bot_data))
         | None =>
             <["status" := VStr "stopped"]>
               (<["memory" := VInt 0]> (<["cpu" := VInt 0]> bot_data))
         end).
Proof.
  unfold bot_info_of. destruct (running_processes s !! bot_id) as [entry|]; [|done].
  by rewrite get_process_stats_cpu, get_process_stats_memory.
Qed.

Lemma collect_user_bots_spec env s username items :
  Forall (λ kv : string * dict, is_Some (kv.2 !! "username")) items →
  ∃ user_bots,
    collect_user_bots env s username items = inr user_bots ∧
    Forall2 (λ kv info, bot_info_of env s kv.1 kv.2 = inr info)
      (filter (λ kv : string * dict, owns username kv.2) items) user_bots.
Proof.
  induction 1 as [|[bot_id bot_data] items [v Hv] _ (user_bots & IH & Hall)]; simpl.
  - exists []. by split; [|constructor].
  - cbn in Hv. rewrite Hv, IH.
    destruct (value_eqb v (VStr username)) eqn:Heq.
    + apply value_eqb_VStr in Heq as ->.
      rewrite filter_cons_True by done.
      rewrite bot_info_of_inr. eexists. split; [done|].
      constructor; [apply bot_info_of_inr | done].
    + rewrite filter_cons_False; [eauto|].
      unfold owns. cbn. rewrite Hv. intros [= ->].
      by rewrite (proj2 (value_eqb_VStr _ _) eq_refl) in Heq.
Qed.

Lemma count_owned_filter username (items : list (string * dict)) :
  Forall (λ kv : string * dict, is_Some (kv.2 !! "username")) items →
  count_owned username (snd <$> items)
  = Some (length (filter (λ kv : string * dict, owns username kv.2) items)).
Proof.
  induction 1 as [|[bot_id bot_data] items [v Hv] _ IH]; [done|].
  rewrite fmap_cons. cbn [count_owned snd]. cbn in Hv. rewrite Hv, IH.
  cbn [mbind option_bind]. f_equal.
  destruct (value_eqb v (VStr username)) eqn:Heq.
  - apply value_eqb_VStr in Heq as ->. by rewrite filter_cons_True.
  - rewrite filter_cons_False; [done|].
    unfold owns. cbn. rewrite Hv. intros [= ->].
    by rewrite (proj2 (value_eqb_VStr _ _) eq_refl) in Heq.
Qed.

Lemma well_formed_items db :
  well_formed db →
  Forall (λ kv : string * dict, is_Some (kv.2 !! "username")) (map_to_list db).
Proof.
  intros Hwf. apply Forall_forall. intros [bot_id record] Hin%elem_of_map_to_list.
  destruct (well_formed_username db bot_id record Hwf Hin) as [user Huser].
  cbn. eauto.
Qed.

(** X16.  On a well-formed registry the listing of an owner answers with
    one view for each bot that the owner holds and with nothing else: as
    many views as the owner holds bots, and a view is in the answer exactly
    when it is the view of a registered record of that owner. *)
Theorem get_user_bots_spec env username s :
  well_formed (bots_db s) →
  ∃ user_bots,
    get_user_bots env username s = (OkBots user_bots, s) ∧
    length user_bots = holds (bots_db s) username ∧
    ∀ info,
      info ∈ user_bots
      ↔ ∃ bot_id record,
          bots_db s !! bot_id = Some record ∧
          owns username record ∧
          bot_info_of env s bot_id record = inr info.
Proof.
  intros Hwf. pose proof (well_formed_items _ Hwf) as Hitems.
  destruct (collect_user_bots_spec env s username _ Hitems) as (user_bots & Hrun & Hall).
  exists user_bots. unfold get_user_bots. rewrite Hrun. split; [done|]. split.
  - rewrite <- (Forall2_length _ _ _ Hall).
    pose proof (user_bot_count_holds _ username Hwf) as Hcount.
    unfold user_bot_count in Hcount. rewrite count_owned_filter in Hcount by done.
    by injection Hcount.
  - intros info. split.
    + intros [i Hi]%list_elem_of_lookup.
      destruct (Forall2_lookup_r _ _ _ _ _ Hall Hi) as ([bot_id record] & Hkv & Hinfo).
      apply list_elem_of_lookup_2, list_elem_of_filter in Hkv as [Howns Hin].
      apply elem_of_map_to_list in Hin. by exists bot_id, record.
    + intros (bot_id & record & Hrec & Howns & Hinfo).
      assert (Hin : (bot_id, record)
                    ∈ filter (λ kv : string * dict, owns username kv.2)
                        (map_to_list (bots_db s))).
      { apply list_elem_of_filter. split; [done|]. by apply elem_of_map_to_list. }
      apply list_elem_of_lookup in Hin as [i Hi].
      destruct (Forall2_lookup_l _ _ _ _ _ Hall Hi) as (info' & Hi' & Hinfo').
      cbn in Hinfo'. rewrite Hinfo in Hinfo'. injection Hinfo' as <-.
      by eapply list_elem_of_lookup_2.
Qed.

Lemma get_user_bots_spec_witness :
  ∃ user_bots,
    get_user_bots (Sample.quiet 1700000013) "alice" Sample.full
    = (OkBots user_bots, Sample.full) ∧
    length user_bots = 3%nat.
Proof.
  destruct (get_user_bots_spec (Sample.quiet 1700000013) "alice" Sample.full)
    as (user_bots & Hlist & Hlen & _).
  - apply (reachable_well_formed Sample.keep). unfold reachable, Sample.full.
    eapply rtc_l; [apply (step_upload _ (Sample.quiet 1700000001) Sample.echoer)|].
    eapply rtc_l; [apply (step_upload _ (Sample.quiet 1700000002) Sample.echoer)|].
    eapply rtc_l; [apply (step_upload _ (Sample.quiet 1700000003) Sample.echoer)|].
    apply rtc_refl.
  - exists user_bots. split; [exact Hlist|]. rewrite Hlen. vm_compute. reflexivity.
Defined.

(** X17.  The listing and the status endpoint agree on a bot, up to one
    key: the view of a stopped bot is the same in both, and the view of a
    running bot in the listing is the view of the status endpoint without
    [started_at], which the listing does not report. *)
Theorem get_user_bots_agrees_with_status env username s bot_id record :
  well_formed (bots_db s) →
  bots_db s !! bot_id = Some record →
  owns username record →
  ∃ user_bots info bot,
    get_user_bots env username s = (OkBots user_bots, s) ∧
    bot_info_of env s bot_id record = inr info ∧
    info ∈ user_bots ∧
    get_bot_status env bot_id s = (OkBot bot, s) ∧
    info = delete "started_at" bot ∧
    (running_processes s !! bot_id = None → info = bot) ∧
    (is_Some (running_processes s !! bot_id) →
       info !! "started_at" = None ∧ is_Some (bot !! "started_at")).
Proof.
  intros Hwf Hrec Howns.
  destruct (get_user_bots_spec env username s Hwf) as (user_bots & Hlist & _ & Hmem).
  destruct (Hwf _ _ Hrec) as (name & user & path & ty & created & ->).
  set (record := new_record bot_id name user path ty created) in *.
  assert (Hnone : record !! "started_at" = None) by done.
  exists user_bots. rewrite bot_info_of_inr.
  destruct (running_processes s !! bot_id) as [entry|] eqn:Hrun.
  - eexists _, _. split; [done|]. split; [done|].
    split; [apply Hmem; exists bot_id, record; by rewrite bot_info_of_inr, Hrun|].
    split; [by apply get_bot_status_running|].
    split; [|split; [done|]].
    + rewrite delete_insert_eq, delete_id by (by rewrite !lookup_insert_ne).
      apply map_eq. intros k.
      destruct (decide (k = "status")) as [->|?]; [by simplify_map_eq|].
      destruct (decide (k = "memory")) as [->|?]; [by simplify_map_eq|].
      destruct (decide (k = "cpu")) as [->|?]; by simplify_map_eq.
    + intros _. split; [by rewrite !lookup_insert_ne|].
      rewrite lookup_insert_eq. eauto.
  - eexists _, _. split; [done|]. split; [done|].
    split; [apply Hmem; exists bot_id, record; by rewrite bot_info_of_inr, Hrun|].
    split; [by apply get_bot_status_stopped|].
    assert (Heq : <["status":=VStr "stopped"]>
                    (<["memory":=VInt 0]> (<["cpu":=VInt 0]> record))
                  = <["memory":=VInt 0]>
                      (<["cpu":=VInt 0]> (<["status":=VStr "stopped"]> record))).
    { apply map_eq. intros k.
      destruct (decide (k = "status")) as [->|?]; [by simplify_map_eq|].
      destruct (decide (k = "memory")) as [->|?]; [by simplify_map_eq|].
      destruct (decide (k = "cpu")) as [->|?]; by simplify_map_eq. }
    split; [|split; [done|by intros [? ?]]].
    rewrite <- Heq. symmetry. apply delete_id. by rewrite !lookup_insert_ne.
Qed.

Lemma get_user_bots_agrees_with_status_witness :
  owns "alice" (new_record Sample.echoer_id "echoer" "alice"
                  "/tmp/bots/alice_echoer_1700000000.py" "py" "2023-11-14T22:13:20") ∧
  ∃ info bot,
    get_bot_status (Sample.quiet 1700000014) Sample.echoer_id Sample.started
    = (OkBot bot, Sample.started) ∧
    info = delete "started_at" bot ∧
    info !! "started_at" = None ∧ is_Some (bot !! "started_at").
Proof.
  split; [reflexivity|].
  destruct (get_user_bots_agrees_with_status (Sample.quiet 1700000014) "alice"
              Sample.started Sample.echoer_id
              (new_record Sample.echoer_id "echoer" "alice"
                 "/tmp/bots/alice_echoer_1700000000.py" "py" "2023-11-14T22:13:20"))
    as (user_bots & info & bot & _ & _ & _ & Hstatus & Hdel & _ & Hrunning).
  - apply (reachable_well_formed Sample.keep), started_reachable.
  - vm_compute. reflexivity.
  - reflexivity.
  - exists info, bot. split; [exact Hstatus|]. split; [exact Hdel|].
    apply Hrunning. vm_compute. eauto.
Defined.

(** ** Invariants of the reachable states *)

Lemma holds_delete db bot_id who : (holds (delete bot_id db) who ≤ holds db who)%nat.
Proof.
  unfold holds, bots_of. rewrite map_filter_delete.
  destruct (filter (λ kv : string * dict, owns who kv.2) db !! bot_id) eqn:Hin.
  - rewrite map_size_delete_Some by eauto. lia.
  - by rewrite delete_id.
Qed.

(** A stored record, whether its identifier is new or taken, is at most one
    more bot for its owner and none for anybody else. *)
Lemma holds_insert db bot_id name user path ty created who :
  (holds (<[bot_id := new_record bot_id name user path ty created]> db) who
   ≤ if decide (who = user) then S (holds db who) else holds db who)%nat.
Proof.
  rewrite <- insert_delete_eq.
  rewrite holds_insert_fresh by apply lookup_delete_eq.
  pose proof (holds_delete db bot_id who). case_decide; lia.
Qed.

Lemma step_quota secure_filename s s' :
  step secure_filename s s' →
  well_formed (bots_db s) →
  (∀ who, holds (bots_db s) who ≤ MAX_BOTS_PER_USER)%nat →
  ∀ who, (holds (bots_db s') who ≤ MAX_BOTS_PER_USER)%nat.
Proof.
  destruct 1 as [env req s|env b s|env b s|env b s|env b s|env b s
                |b entry output s Hchild|b entry s Hchild];
    intros Hwf Hquota who; try exact (Hquota who).
  - unfold upload_bot.
    destruct (bot_file req) as [file|]; [|apply Hquota].
    destruct (negb _ || negb _); [apply Hquota|].
    rewrite (user_bot_count_holds _ _ Hwf).
    destruct (Nat.leb_spec MAX_BOTS_PER_USER
                (holds (bots_db s) (default EmptyString (form_username req))))
      as [|Hbelow]; [apply Hquota|].
    destruct (_ && allowed_file (filename file)); [|apply Hquota].
    destruct (extension (filename file)) as [ext|]; [|apply Hquota].
    destruct (save_fault env _); [apply Hquota|]. cbn.
    etrans; [apply holds_insert|]. case_decide as Hwho.
    + subst who. lia.
    + apply Hquota.
  - rewrite start_bot_registry. apply Hquota.
  - rewrite stop_bot_registry. apply Hquota.
  - destruct (bots_db s !! b) as [record|] eqn:Hrec.
    + destruct (delete_bot_registry env b s) as [_ ->]; [eauto|].
      etrans; [apply holds_delete | apply Hquota].
    + unfold delete_bot. rewrite Hrec. apply Hquota.
  - rewrite get_bot_logs_state. apply Hquota.
  - rewrite get_bot_status_state. apply Hquota.
Qed.

(** X18.  Whatever requests were served, in whatever environments, no
    owner ever holds more than [MAX_BOTS_PER_USER] bots. *)
Theorem reachable_quota secure_filename s who :
  reachable secure_filename s →
  (holds (bots_db s) who ≤ MAX_BOTS_PER_USER)%nat.
Proof.
  intros Hreach.
  enough (Hinv : well_formed (bots_db s) ∧
                 ∀ who, (holds (bots_db s) who ≤ MAX_BOTS_PER_USER)%nat)
    by apply Hinv.
  apply (rtc_ind_r (R := step secure_filename)
           (λ t, well_formed (bots_db t) ∧
                 ∀ who, (holds (bots_db t) who ≤ MAX_BOTS_PER_USER)%nat) initial);
    [| |exact Hreach].
  - split; [apply well_formed_empty|]. intros u. cbn.
    unfold holds, bots_of. rewrite map_filter_empty, map_size_empty. lia.
  - intros t t' _ Hstep [Hwf Hquota]. split.
    + by eapply step_well_formed.
    + by eapply step_quota.
Qed.

Lemma reachable_quota_witness :
  reachable Sample.keep Sample.uploaded ∧
  (holds (bots_db Sample.uploaded) "alice" ≤ MAX_BOTS_PER_USER)%nat.
Proof.
  split; [apply uploaded_reachable|].
  apply (reachable_quota Sample.keep Sample.uploaded "alice"), uploaded_reachable.
Defined.

Lemma allowed_file_extension f : allowed_file f = true → is_Some (extension f).
Proof.
  unfold allowed_file. intros [_ Hext]%andb_prop.
  destruct (extension f); [eauto | done].
Qed.

(** X19.  On every reachable state no view fails on a missing key or a
    missing extension: the only exceptions that can leave a view are the
    one of [file.save] in an upload and the one of [process.kill] in a
    stop.  Start, delete, logs, status and the listing always answer. *)
Theorem reachable_no_unhandled secure_filename s :
  reachable secure_filename s →
  (∀ env req e, fst (upload_bot secure_filename env req s) = Unhandled e →
     ∃ path, save_fault env path = Some e) ∧
  (∀ env bot_id e, fst (stop_bot env bot_id s) = Unhandled e →
     ∃ p, kill_fault env p = Some e) ∧
  (∀ env bot_id e, fst (start_bot env bot_id s) ≠ Unhandled e) ∧
  (∀ env bot_id e, fst (delete_bot env bot_id s) ≠ Unhandled e) ∧
  (∀ env bot_id e, fst (get_bot_logs env bot_id s) ≠ Unhandled e) ∧
  (∀ env bot_id e, fst (get_bot_status env bot_id s) ≠ Unhandled e) ∧
  (∀ env username e, fst (get_user_bots env username s) ≠ ListingUnhandled e).
Proof.
  intros Hwf%reachable_well_formed. repeat split.
  - intros env req e. unfold upload_bot.
    destruct (bot_file req) as [file|]; [|done].
    destruct (negb _ || negb _); [done|].
    rewrite (user_bot_count_holds _ _ Hwf).
    destruct (_ <=? _)%nat; [done|].
    destruct (_ && allowed_file (filename file)) eqn:Hok; [|done].
    apply andb_prop in Hok as [_ [ext Hext]%allowed_file_extension].
    rewrite Hext. destruct (save_fault env _) as [e'|] eqn:Hsave; [|done].
    intros [= <-]. eauto.
  - intros env bot_id e. unfold stop_bot.
    destruct (running_processes s !! bot_id) as [entry|]; [|done].
    destruct (terminate_and_wait env (process entry)) as [[]|]; try done.
    destruct (kill_fault env (process entry)) as [e'|] eqn:Hkill; [|done].
    intros [= <-]. eauto.
  - intros env bot_id e. unfold start_bot.
    destruct (bots_db s !! bot_id) as [record|] eqn:Hrec; [|done].
    destruct (Hwf _ _ Hrec) as (name & user & path & ty & created & ->).
    rewrite new_record_filepath, new_record_file_type.
    by repeat case_match.
  - intros env bot_id e. unfold delete_bot. by case_match.
  - intros env bot_id e. unfold get_bot_logs. by repeat case_match.
  - intros env bot_id e. unfold get_bot_status.
    destruct (bots_db s !! bot_id); [|done].
    destruct (running_processes s !! bot_id); [|done].
    by rewrite get_process_stats_cpu, get_process_stats_memory.
  - intros env username e.
    destruct (get_user_bots_spec env username s Hwf) as (user_bots & -> & _). done.
Qed.

Lemma reachable_no_unhandled_witness :
  reachable Sample.keep Sample.started ∧
  fst (start_bot (Sample.quiet 1700000015) Sample.echoer_id Sample.started)
  ≠ Unhandled (KeyError "filepath").
Proof.
  split; [apply started_reachable|].
  destruct (reachable_no_unhandled Sample.keep Sample.started started_reachable)
    as (_ & _ & Hstart & _).
  apply Hstart.
Defined.

Lemma upload_bot_running secure_filename env req s :
  running_processes (snd (upload_bot secure_filename env req s)) = running_processes s.
Proof. unfold upload_bot. by repeat case_match. Qed.

Lemma start_bot_running_cases env bot_id s :
  running_processes (snd (start_bot env bot_id s)) = running_processes s ∨
  ∃ message p, start_bot env bot_id s = (OkStart message p, snd (start_bot env bot_id s)).
Proof. unfold start_bot. repeat case_match; cbn; eauto. Qed.

(** X20.  On every reachable state each process table entry is the entry
    that a start wrote: its pid is the pid of its process handle, its log
    file is the log path of the identifier it is stored under, and its
    process was spawned as [python3] or [node] with one argument. *)
Theorem reachable_process_entries secure_filename s bot_id entry :
  reachable secure_filename s →
  running_processes s !! bot_id = Some entry →
  pid entry = popen_pid (process entry) ∧
  log_file entry = log_path bot_id ∧
  ∃ interpreter script,
    popen_args (process entry) = [interpreter; script] ∧
    (interpreter = "python3" ∨ interpreter = "node").
Proof.
  intros Hreach. revert bot_id entry.
  apply (rtc_ind_r (R := step secure_filename)
           (λ t, ∀ bot_id entry, running_processes t !! bot_id = Some entry →
                 pid entry = popen_pid (process entry) ∧
                 log_file entry = log_path bot_id ∧
                 ∃ interpreter script,
                   popen_args (process entry) = [interpreter; script] ∧
                   (interpreter = "python3" ∨ interpreter = "node")) initial);
    [| |exact Hreach]; [done|].
  intros t t' _ Hstep IH bot_id entry.
  destruct Hstep as [env req t|env b t|env b t|env b t|env b t|env b t
                    |b child output t Hchild|b child t Hchild];
    try exact (IH bot_id entry).
  - rewrite upload_bot_running. apply IH.
  - destruct (start_bot_running_cases env b t) as [->|(message & p & Hstart)];
      [apply IH|].
    apply start_bot_inversion in Hstart
      as (record & path & interpreter & _ & _ & _ & Hkind & _ & Htable & _).
    rewrite Htable. intros [[<- <-]|[_ Hold]]%lookup_insert_Some; [|by apply IH].
    cbn. repeat split. exists interpreter, path. split; [done|].
    by destruct Hkind as [[_ ->]|[_ ->]]; [left|right].
  - unfold stop_bot. repeat case_match; cbn; try apply IH;
      intros [_ Hold]%lookup_delete_Some; by apply IH.
  - unfold delete_bot. repeat case_match; cbn; try apply IH;
      intros [_ Hold]%lookup_delete_Some; by apply IH.
  - rewrite get_bot_logs_state. apply IH.
  - rewrite get_bot_status_state. apply IH.
Qed.

Lemma reachable_process_entries_witness :
  reachable Sample.keep Sample.started ∧
  ∃ entry,
    running_processes Sample.started !! Sample.echoer_id = Some entry ∧
    log_file entry = log_path Sample.echoer_id.
Proof.
  split; [apply started_reachable|].
  eexists. split; [vm_compute; reflexivity|].
  eapply (reachable_process_entries Sample.keep Sample.started Sample.echoer_id);
    [apply started_reachable | vm_compute; reflexivity].
Defined.

(** ** From the upload to the delete *)

(** The interpreter that [start_bot] picks for a stored type. *)
Lemma start_bot_starts env bot_id s record filepath ty p :
  bots_db s !! bot_id = Some record →
  running_processes s !! bot_id = None →
  record !! "filepath" = Some (VStr filepath) →
  record !! "file_type" = Some (VStr ty) →
  ty ∈ ALLOWED_EXTENSIONS →
  open_fault env (log_path bot_id) = None →
  spawn env [if String.eqb ty "py" then "python3" else "node"; filepath] = inr p →
  fst (start_bot env bot_id s) = OkStart "Bot started successfully" p.
Proof.
  intros Hrec Hrun Hpath Hty Hok Hopen Hspawn. unfold start_bot.
  rewrite Hrec, Hrun, Hpath, Hty.
  assert (Hcmd : launch_command (VStr ty) (VStr filepath)
                 = Some [VStr (if String.eqb ty "py" then "python3" else "node");
                         VStr filepath]).
  { unfold ALLOWED_EXTENSIONS in Hok. rewrite !elem_of_cons, elem_of_nil in Hok.
    by destruct Hok as [->|[->|[]]]. }
  rewrite Hcmd, Hopen. cbn. by rewrite Hspawn.
Qed.

(** X9.  A bot that was uploaded with an extension that is literally [py]
    or [js] can be started: if its identifier has no process table entry,
    the log file can be opened and the interpreter can be spawned on the
    stored script, the start right after the upload answers success with
    the pid of the child. *)
Theorem upload_then_start
    secure_filename env0 env1 req s file username bot_name ext p :
  valid_upload secure_filename env0 req username bot_name file ext →
  ext ∈ ALLOWED_EXTENSIONS →
  well_formed (bots_db s) →
  (holds (bots_db s) username < MAX_BOTS_PER_USER)%nat →
  let bot_id := generate_bot_id username bot_name (clock env0) in
  running_processes s !! bot_id = None →
  open_fault env1 (log_path bot_id) = None →
  spawn env1 [if String.eqb ext "py" then "python3" else "node";
              script_path secure_filename bot_id ext] = inr p →
  let s0 := snd (upload_bot secure_filename env0 req s) in
  fst (upload_bot secure_filename env0 req s)
  = OkUpload "Bot uploaded successfully" bot_id ∧
  fst (start_bot env1 bot_id s0) = OkStart "Bot started successfully" p ∧
  (∀ env, reported_status env bot_id s0 = Some (VStr "stopped")) ∧
  (∀ env, reported_status env bot_id (snd (start_bot env1 bot_id s0))
          = Some (VStr "running")).
Proof.
  intros Hvalid Hext Hwf Hquota bot_id Hrun Hopen Hspawn s0. subst s0.
  rewrite (upload_bot_accepts secure_filename env0 req s file username bot_name ext)
    by done.
  fold bot_id. cbn [fst snd]. split; [done|].
  set (s0 := set_bots_db _ _).
  assert (Hrec : bots_db s0 !! bot_id
                 = Some (new_record bot_id bot_name username
                           (script_path secure_filename bot_id ext) ext (now_iso env0)))
    by apply lookup_insert_eq.
  assert (Hstart : fst (start_bot env1 bot_id s0) = OkStart "Bot started successfully" p).
  { apply (start_bot_starts env1 bot_id s0 _
               (script_path secure_filename bot_id ext) ext p Hrec);
      [exact Hrun | apply new_record_filepath | apply new_record_file_type
      | exact Hext | exact Hopen | exact Hspawn]. }
  split; [exact Hstart|]. split.
  - intros env. apply reported_status_stopped; [by rewrite Hrec|done].
  - intros env. destruct (start_bot env1 bot_id s0) as [r s1] eqn:Hs1.
    cbn in Hstart. subst r.
    apply start_bot_inversion in Hs1
      as (record & script & interpreter & _ & _ & _ & _ & _ & _ & _ & _ & _ & Hstatus).
    apply Hstatus.
Qed.

Lemma upload_then_start_witness :
  fst (upload_bot Sample.keep (Sample.quiet 1700000000) Sample.echoer initial)
  = OkUpload "Bot uploaded successfully" Sample.echoer_id ∧
  fst (start_bot (Sample.quiet 1700000007) Sample.echoer_id Sample.uploaded)
  = OkStart "Bot started successfully" 4242.
Proof.
  destruct (upload_then_start Sample.keep (Sample.quiet 1700000000)
              (Sample.quiet 1700000007) Sample.echoer initial
              {| filename := "echo.py"; content := "print(1)" |}
              "alice" "echoer" "py" 4242)
    as (Hup & Hstart & _).
  - apply echoer_valid.
  - unfold ALLOWED_EXTENSIONS. apply elem_of_cons. by left.
  - apply well_formed_empty.
  - vm_compute. lia.
  - reflexivity.
  - reflexivity.
  - reflexivity.
  - split; [exact Hup | exact Hstart].
Defined.

(** X21.  The life of a bot, whenever each request succeeds: after the
    upload the bot is reported as stopped, after the start as running,
    after the stop as stopped again, and after the delete every status
    request is answered "Bot not found". *)
Theorem lifecycle secure_filename env0 env1 env2 env3 req s
    message0 bot_id s0 message1 p s1 message2 s2 :
  running_processes s !! bot_id = None →
  upload_bot secure_filename env0 req s = (OkUpload message0 bot_id, s0) →
  start_bot env1 bot_id s0 = (OkStart message1 p, s1) →
  stop_bot env2 bot_id s1 = (OkMessage message2, s2) →
  let r3 := delete_bot env3 bot_id s2 in
  (∀ env, reported_status env bot_id s0 = Some (VStr "stopped")) ∧
  (∀ env, reported_status env bot_id s1 = Some (VStr "running")) ∧
  (∀ env, reported_status env bot_id s2 = Some (VStr "stopped")) ∧
  fst r3 = OkMessage "Bot deleted successfully" ∧
  (∀ env, get_bot_status env bot_id (snd r3) = (Fail 404 "Bot not found", snd r3)) ∧
  running_processes (snd r3) !! bot_id = None.
Proof.
  intros Hrun Hup Hstart Hstop r3. subst r3.
  apply upload_bot_stores in Hup
    as (name & user & path & ty & created & Hdb0 & Htable0 & _).
  assert (Hrec0 : is_Some (bots_db s0 !! bot_id))
    by (rewrite Hdb0, lookup_insert_eq; eauto).
  pose proof Hstart as Hstart'.
  apply start_bot_inversion in Hstart'
    as (record & script & interpreter & _ & _ & _ & _ & _ & Htable1 & _ & _ & Hdb1
        & Hstatus1).
  pose proof Hstop as Hstop'.
  apply stop_bot_success in Hstop' as (entry & Hentry & ->).
  assert (Hrec2 : is_Some (bots_db (forget_process bot_id (process entry) s1) !! bot_id))
    by (cbn; by rewrite Hdb1).
  assert (Hrun2 : running_processes (forget_process bot_id (process entry) s1) !! bot_id
                  = None) by (cbn; apply lookup_delete_eq).
  split.
  { intros env. apply reported_status_stopped; [done|]. by rewrite Htable0. }
  split; [exact Hstatus1|]. split.
  { intros env. by apply reported_status_stopped. }
  destruct (delete_bot_final env3 bot_id _ Hrec2) as [Hresp Hlater].
  split; [exact Hresp|]. split; [intros env; apply Hlater|].
  unfold delete_bot. destruct Hrec2 as [record2 ->]. rewrite Hrun2. exact Hrun2.
Qed.

Lemma lifecycle_witness :
  running_processes initial !! Sample.echoer_id = None ∧
  reported_status (Sample.quiet 1700000008) Sample.echoer_id Sample.started
  = Some (VStr "running") ∧
  get_bot_status (Sample.quiet 1700000016) Sample.echoer_id
    (snd (delete_bot (Sample.quiet 1700000012) Sample.echoer_id
            (snd (stop_bot (Sample.quiet 1700000011) Sample.echoer_id Sample.started))))
  = (Fail 404 "Bot not found",
     snd (delete_bot (Sample.quiet 1700000012) Sample.echoer_id
            (snd (stop_bot (Sample.quiet 1700000011) Sample.echoer_id Sample.started)))).
Proof.
  split; [reflexivity|].
  destruct (lifecycle Sample.keep (Sample.quiet 1700000000) (Sample.quiet 1700000007)
              (Sample.quiet 1700000011) (Sample.quiet 1700000012)
              Sample.echoer initial
              "Bot uploaded successfully" Sample.echoer_id Sample.uploaded
              "Bot started successfully" 4242 Sample.started
              "Bot stopped successfully"
              (snd (stop_bot (Sample.quiet 1700000011) Sample.echoer_id Sample.started)))
    as (_ & Hrunning & _ & _ & Hgone & _); try (vm_compute; reflexivity).
  split; [apply Hrunning | apply Hgone].
Defined.

(** X22.  A start and a stop touch one bot only and never the registry: a
    start leaves every record, every process table entry of another
    identifier and every file other than the log of the bot as it was; a
    stop leaves every record, every file and every entry of another
    identifier as it was. *)
Theorem start_stop_frame env bot_id s :
  (bots_db (snd (start_bot env bot_id s)) = bots_db s ∧
   (∀ other, other ≠ bot_id →
      running_processes (snd (start_bot env bot_id s)) !! other
      = running_processes s !! other) ∧
   (∀ path, path ≠ log_path bot_id →
      fs (snd (start_bot env bot_id s)) !! path = fs s !! path)) ∧
  (bots_db (snd (stop_bot env bot_id s)) = bots_db s ∧
   fs (snd (stop_bot env bot_id s)) = fs s ∧
   (∀ other, other ≠ bot_id →
      running_processes (snd (stop_bot env bot_id s)) !! other
      = running_processes s !! other)).
Proof.
  split; [split; [apply start_bot_registry|split]|split; [apply stop_bot_registry|split]].
  - intros other Hne. unfold start_bot.
    repeat case_match; cbn; try done. by rewrite lookup_insert_ne.
  - intros path Hne. unfold start_bot.
    repeat case_match; cbn; try done; by rewrite lookup_insert_ne.
  - unfold stop_bot. by repeat case_match.
  - intros other Hne. unfold stop_bot.
    repeat case_match; cbn; try done; by rewrite lookup_delete_ne.
Qed.

Lemma start_stop_frame_witness :
  "/tmp/bots/alice_echoer_1700000000.py" ≠ log_path Sample.echoer_id ∧
  fs Sample.started !! "/tmp/bots/alice_echoer_1700000000.py"
  = fs Sample.uploaded !! "/tmp/bots/alice_echoer_1700000000.py".
Proof.
  assert (Hne : "/tmp/bots/alice_echoer_1700000000.py" ≠ log_path Sample.echoer_id)
    by (vm_compute; discriminate).
  split; [exact Hne|].
  destruct (start_stop_frame (Sample.quiet 1700000007) Sample.echoer_id Sample.uploaded)
    as [(_ & _ & Hfiles) _].
  exact (Hfiles _ Hne).
Defined.
